(** * SaveConverter: the conversion orchestration of PalEdit

    A shallow embedding of [src/SaveConverter.py]: the argument record,
    the string operations the script relies on ([in], [endswith],
    [replace], [casefold]), the file system and standard input as
    explicit state, the two conversion pipelines and [main].

    The parser, the codec and the JSON encoder live in [lib/] and are
    taken as parameters of the development. *)

From Stdlib Require Import String Ascii ZArith Lia.
From stdpp Require Import base option list gmap strings.

Local Open Scope string_scope.
Local Open Scope list_scope.

(** ** Python's [str] operations

    A Python [str] is modelled as a Rocq [string]; the replies, paths and
    class names the script handles are taken to be ASCII text. *)
Module PyStr.

(** [sub in s] on strings: [sub] occurs in [s] as a contiguous block. *)
Fixpoint str_in (sub s : string) : bool :=
  String.prefix sub s ||
  match s with
  | EmptyString => false
  | String _ s' => str_in sub s'
  end.

(** [s.endswith(suffix)]. *)
Definition endswith (s suffix : string) : bool :=
  (String.length suffix <=? String.length s)%nat &&
  String.eqb
    (String.substring (String.length s - String.length suffix)
                      (String.length suffix) s)
    suffix.

(** The scan of [s.replace(old, new)] for a non-empty [old]: [skip]
    counts the characters of a matched occurrence still to be dropped. *)
Fixpoint replace_from (old new : string) (skip : nat) (s : string) : string :=
  match s with
  | EmptyString => EmptyString
  | String c s' =>
      match skip with
      | S k => replace_from old new k s'
      | O =>
          if String.prefix old s
          then new +:+ replace_from old new (String.length old - 1) s'
          else String c (replace_from old new 0 s')
      end
  end.

(** [s.replace("", new)] puts [new] before every character and at the
    end. *)
Fixpoint intersperse_all (new s : string) : string :=
  match s with
  | EmptyString => new
  | String c s' => new +:+ String c (intersperse_all new s')
  end.

(** [s.replace(old, new)]: every occurrence met in one scan from the
    left is replaced, the scan resuming after the occurrence. *)
Definition replace (s old new : string) : string :=
  match old with
  | EmptyString => intersperse_all new s
  | _ => replace_from old new 0 s
  end.

(** [str.casefold] on ASCII text: the upper-case letters are lowered,
    every other character is kept. *)
Definition casefold_ascii (c : ascii) : ascii :=
  let n := nat_of_ascii c in
  if (65 <=? n)%nat && (n <=? 90)%nat then ascii_of_nat (n + 32) else c.

Fixpoint casefold (s : string) : string :=
  match s with
  | EmptyString => EmptyString
  | String c s' => String (casefold_ascii c) (casefold s')
  end.

End PyStr.

Import PyStr.

(** ** The world the script runs in *)

(** What a path refers to. Paths are compared as strings; a path that
    the file system does not hold refers to nothing. The file system is
    keyed by the paths as the script spells them, and every file is
    taken to have one spelling: two spellings of one file (["a.sav"] and
    ["./a.sav"], a link, a name in another case) are two keys here. What
    is stated of a path is stated of that spelling. *)
Inductive node :=
| File (data : string)
| Dir.

Inductive Pipeline := BinaryToText | TextToBinary.

(** What a run does that can be observed from outside. [Enter] marks the
    call of [convert_sav_to_json] or [convert_json_to_sav]; [Compress]
    records the [save_type] argument of [compress_gvas_to_sav]. *)
Inductive event :=
| Print (line : string)
| Input (prompt : string)
| OpenRead (path : string)
| OpenWrite (path : string)
| Written (path data : string)
| Enter (p : Pipeline)
| Compress (save_type : Z).

Record World := mkWorld {
  fs : gmap string node;
  stdin : list string;
  log : list event
}.

(** The delegated steps: [decompress_sav_to_gvas], [GvasFile.read],
    [gvas_file.dump], [json.dump], [json.load], [GvasFile.load],
    [gvas_file.write] and [compress_gvas_to_sav]. *)
Inductive step :=
| Decompress | Parse | Dump | Encode | Decode | Load | Serialize | Compression.

Inductive exn :=
| EOFError
| OSError (path : string)
| Delegated (s : step).

(** How a computation ends: a value, [exit(code)], or an exception that
    nothing catches. *)
Inductive outcome (A : Type) :=
| Ok (a : A)
| Exit (code : Z)
| Raise (e : exn).
Arguments Ok {A} a.
Arguments Exit {A} code.
Arguments Raise {A} e.

(** Computations of the script: they read and change the world and end
    in an [outcome]. *)
Record M (A : Type) : Type := MkM { run : World → outcome A * World }.
Arguments MkM {A} run.
Arguments run {A} m w.

Definition ret {A} (a : A) : M A := MkM (λ w, (Ok a, w)).

(** Sequencing: [exit] and an exception cut what follows. *)
Definition bind {A B} (m : M A) (f : A → M B) : M B :=
  MkM (λ w,
    match run m w with
    | (Ok a, w') => run (f a) w'
    | (Exit c, w') => (Exit c, w')
    | (Raise e, w') => (Raise e, w')
    end).

Declare Scope script_scope.
Delimit Scope script_scope with script.
Bind Scope script_scope with M.
Notation "x ← y ; z" := (bind y (λ x, z))
  (at level 20, y at level 100, z at level 200, only parsing) : script_scope.
Notation "' x ← y ; z" := (bind y (λ x, z))
  (at level 20, x pattern, y at level 100, z at level 200, only parsing)
  : script_scope.
Notation "x ;; z" := (bind x (λ _, z))
  (at level 100, z at level 200, only parsing, right associativity)
  : script_scope.
Local Open Scope script_scope.

(** The status the interpreter hands to the shell. *)
Definition exit_code {A} (o : outcome A) : Z :=
  match o with
  | Ok _ => 0
  | Exit c => c
  | Raise _ => 1
  end.

Definition emit (e : event) : M unit :=
  MkM (λ w, (Ok tt, mkWorld (fs w) (stdin w) (log w ++ [e]))).

Definition print (line : string) : M unit := emit (Print line).

Definition exit {A} (code : Z) : M A := MkM (λ w, (Exit code, w)).

Definition raise {A} (e : exn) : M A := MkM (λ w, (Raise e, w)).

Definition delegate {A} (s : step) (r : option A) : M A :=
  match r with
  | Some a => ret a
  | None => raise (Delegated s)
  end.

(** [os.path.exists] and [os.path.isfile]. *)
Definition path_exists (path : string) : M bool :=
  MkM (λ w, (Ok (match fs w !! path with Some _ => true | None => false end), w)).

Definition path_isfile (path : string) : M bool :=
  MkM (λ w,
    (Ok (match fs w !! path with Some (File _) => true | _ => false end), w)).

(** ** The collaborators outside the script

    [lib.palsav], [lib.gvas], [lib.json_tools] and the [json] module, each
    call returning [None] where the Python call raises; and whether the
    operating system lets a path be opened. [json_dump] gives the text
    that reached the file and whether the encoder finished. *)
Record Extern := {
  Raw : Type;
  Gvas : Type;
  Obj : Type;
  decompress_sav_to_gvas : string → option (Raw * Z);
  GvasFile_read : Raw → option Gvas;
  GvasFile_dump : Gvas → option Obj;
  json_dump : Obj → option string → string * bool;
  json_load : string → option Obj;
  GvasFile_load : Obj → option Gvas;
  save_game_class_name : Gvas → string;
  GvasFile_write : Gvas → option Raw;
  compress_gvas_to_sav : Raw → Z → option string;
  may_read : string → bool;
  may_write : string → bool
}.

(** ** Save-variant classification (lines 86-92 and 132-138) *)

Inductive VariantTag := Standard | WorldOrLocal.

(** The condition of the [if]. *)
Definition classify (save_game_class_name : string) : VariantTag :=
  if str_in "Pal.PalWorldSaveGame" save_game_class_name
     || str_in "Pal.PalLocalWorldSaveGame" save_game_class_name
  then WorldOrLocal
  else Standard.

(** The value each branch assigns to [save_type]. *)
Definition save_type_of (t : VariantTag) : Z :=
  match t with
  | WorldOrLocal => 0x32
  | Standard => 0x31
  end.

(** ** The script *)

Record Args := mkArgs {
  filename : string;
  to_json : bool;
  from_json : bool;
  output : option string;
  force : bool;
  minify_json : bool
}.

(** [not args.output] is false exactly for a non-empty string. *)
Definition truthy (o : option string) : bool :=
  match o with
  | Some (String _ _) => true
  | _ => false
  end.

Definition output_path_to_json (args : Args) : string :=
  if negb (truthy (output args))
  then filename args +:+ ".json"
  else default "" (output args).

Definition output_path_from_json (args : Args) : string :=
  if negb (truthy (output args))
  then replace (filename args) ".json" ""
  else default "" (output args).

(** [reply in ("y", "n")], the negation of the loop condition. *)
Definition is_y_or_n (reply : string) : bool :=
  String.eqb reply "y" || String.eqb reply "n".

(** The loop of [confirm_prompt], by recursion on what standard input
    still holds; [input] raises [EOFError] when it holds nothing. *)
Fixpoint confirm_loop (prompt : string) (replies : list string)
    (lg : list event) : outcome bool * list string * list event :=
  match replies with
  | [] => (Raise EOFError, [], lg ++ [Input prompt])
  | r :: rest =>
      let reply := casefold r in
      if is_y_or_n reply
      then (Ok (String.eqb reply "y"), rest, lg ++ [Input prompt])
      else confirm_loop prompt rest (lg ++ [Input prompt])
  end.

Definition confirm_prompt (question : string) : M bool :=
  MkM (λ w,
    let '(o, rest, lg) :=
      confirm_loop (question +:+ " (y/n): ") (stdin w) (log w) in
    (o, mkWorld (fs w) rest lg)).

Section Script.

Context (X : Extern).

(** [with open(path, "rb") as f: data = f.read()]. *)
Definition read_file (path : string) : M string :=
  MkM (λ w,
    let w' := mkWorld (fs w) (stdin w) (log w ++ [OpenRead path]) in
    match fs w !! path with
    | Some (File data) =>
        if may_read X path then (Ok data, w') else (Raise (OSError path), w')
    | _ => (Raise (OSError path), w')
    end).

(** [open(path, "w")]: the file is created, or emptied when it is
    there. *)
Definition open_write (path : string) : M unit :=
  MkM (λ w,
    let lg := log w ++ [OpenWrite path] in
    match fs w !! path with
    | Some Dir => (Raise (OSError path), mkWorld (fs w) (stdin w) lg)
    | _ =>
        if may_write X path
        then (Ok tt, mkWorld (<[path := File ""]> (fs w)) (stdin w) lg)
        else (Raise (OSError path), mkWorld (fs w) (stdin w) lg)
    end).

(** What the open file holds once [data] has gone through it. The
    write and the close of a file that was opened are taken to
    complete; a run in which they raise is not a run of the model. *)
Definition store (path data : string) : M unit :=
  MkM (λ w, (Ok tt, mkWorld (<[path := File data]> (fs w)) (stdin w) (log w))).

Definition convert_sav_to_obj (filename : string) : M (Obj X) :=
  print "Decompressing sav file" ;;
  data ← read_file filename ;
  '(raw_gvas, _) ← delegate Decompress (decompress_sav_to_gvas X data) ;
  print "Loading GVAS file" ;;
  gvas_file ← delegate Parse (GvasFile_read X raw_gvas) ;
  delegate Dump (GvasFile_dump X gvas_file).

Definition convert_obj_to_sav (obj : Obj X) (output_path : string)
    (force : bool) : M unit :=
  ex ← path_exists output_path ;
  (if ex then
     print (output_path +:+ " already exists, this will overwrite the file") ;;
     if negb force then
       ok ← confirm_prompt "Are you sure you want to continue?" ;
       if negb ok then exit 1 else ret tt
     else ret tt
   else ret tt) ;;
  gvas_file ← delegate Load (GvasFile_load X obj) ;
  print "Compressing SAV file" ;;
  let save_type := save_type_of (classify (save_game_class_name X gvas_file)) in
  raw ← delegate Serialize (GvasFile_write X gvas_file) ;
  emit (Compress save_type) ;;
  sav_file ← delegate Compression (compress_gvas_to_sav X raw save_type) ;
  print ("Writing SAV file to " +:+ output_path) ;;
  open_write output_path ;;
  store output_path sav_file ;;
  emit (Written output_path sav_file).

Definition convert_sav_to_json (filename output_path : string)
    (force minify : bool) : M unit :=
  emit (Enter BinaryToText) ;;
  print ("Converting " +:+ filename +:+ " to JSON, saving to " +:+ output_path) ;;
  ex ← path_exists output_path ;
  (if ex then
     print (output_path +:+ " already exists, this will overwrite the file") ;;
     if negb force then
       ok ← confirm_prompt "Are you sure you want to continue?" ;
       if negb ok then exit 1 else ret tt
     else ret tt
   else ret tt) ;;
  print "Decompressing sav file" ;;
  data ← read_file filename ;
  '(raw_gvas, _) ← delegate Decompress (decompress_sav_to_gvas X data) ;
  print "Loading GVAS file" ;;
  gvas_file ← delegate Parse (GvasFile_read X raw_gvas) ;
  print ("Writing JSON to " +:+ output_path) ;;
  open_write output_path ;;
  let indent := if minify then None else Some "	" in
  obj ← delegate Dump (GvasFile_dump X gvas_file) ;
  let '(text, finished) := json_dump X obj indent in
  store output_path text ;;
  if finished then emit (Written output_path text)
  else raise (Delegated Encode).

Definition convert_json_to_sav (filename output_path : string)
    (force : bool) : M unit :=
  emit (Enter TextToBinary) ;;
  print ("Converting " +:+ filename +:+ " to SAV, saving to " +:+ output_path) ;;
  ex ← path_exists output_path ;
  (if ex then
     print (output_path +:+ " already exists, this will overwrite the file") ;;
     if negb force then
       ok ← confirm_prompt "Are you sure you want to continue?" ;
       if negb ok then exit 1 else ret tt
     else ret tt
   else ret tt) ;;
  print ("Loading JSON from " +:+ filename) ;;
  text ← read_file filename ;
  data ← delegate Decode (json_load X text) ;
  gvas_file ← delegate Load (GvasFile_load X data) ;
  print "Compressing SAV file" ;;
  let save_type := save_type_of (classify (save_game_class_name X gvas_file)) in
  raw ← delegate Serialize (GvasFile_write X gvas_file) ;
  emit (Compress save_type) ;;
  sav_file ← delegate Compression (compress_gvas_to_sav X raw save_type) ;
  print ("Writing SAV file to " +:+ output_path) ;;
  open_write output_path ;;
  store output_path sav_file ;;
  emit (Written output_path sav_file).

Definition main (args : Args) : M unit :=
  (if to_json args && from_json args then
     print "Cannot specify both --to-json and --from-json" ;;
     exit 1
   else ret tt) ;;
  ex ← path_exists (filename args) ;
  (if negb ex then
     print (filename args +:+ " does not exist") ;;
     exit 1
   else ret tt) ;;
  isf ← path_isfile (filename args) ;
  (if negb isf then
     print (filename args +:+ " is not a file") ;;
     exit 1
   else ret tt) ;;
  (if to_json args || endswith (filename args) ".sav" then
     convert_sav_to_json (filename args) (output_path_to_json args)
                         (force args) (minify_json args)
   else ret tt) ;;
  (if from_json args || endswith (filename args) ".json" then
     convert_json_to_sav (filename args) (output_path_from_json args)
                         (force args)
   else ret tt).

End Script.

(** ** A stand-in for [lib/]

    Small collaborators on which the script can be run: a container is
    ["PlZ"], one discriminator byte and the payload; a payload is a class
    name behind ["GVAS"]; the JSON text is the payload in braces, behind a
    tab unless minified. A ['?'] in a document makes [dump] fail, a ['#']
    makes [write] fail. *)
Module Stub.

Definition decompress (data : string) : option (string * Z) :=
  match data with
  | String "P" (String "l" (String "Z" (String t raw))) =>
      Some (raw, Z.of_nat (nat_of_ascii t))
  | _ => None
  end.

Definition parse (raw : string) : option string :=
  if String.prefix "GVAS" raw then Some raw else None.

Definition dump (g : string) : option string :=
  if str_in "?" g then None else Some g.

Definition encode (obj : string) (indent : option string) : string * bool :=
  ("{" +:+ default "" indent +:+ obj +:+ "}", true).

Fixpoint unbrace (text : string) : string :=
  match text with
  | EmptyString => EmptyString
  | String c rest =>
      if Ascii.eqb c "{" || Ascii.eqb c "}" || Ascii.eqb c "009"
      then unbrace rest
      else String c (unbrace rest)
  end.

Definition decode (text : string) : option string :=
  if String.prefix "{" text then Some (unbrace text) else None.

Definition serialize (g : string) : option string :=
  if str_in "#" g then None else Some g.

Definition compress (raw : string) (save_type : Z) : option string :=
  Some ("PlZ" +:+ String (ascii_of_nat (Z.to_nat save_type)) raw).

Definition lib : Extern := {|
  Raw := string;
  Gvas := string;
  Obj := string;
  decompress_sav_to_gvas := decompress;
  GvasFile_read := parse;
  GvasFile_dump := dump;
  json_dump := encode;
  json_load := decode;
  GvasFile_load := parse;
  save_game_class_name := λ g, g;
  GvasFile_write := serialize;
  compress_gvas_to_sav := compress;
  may_read := λ _, true;
  may_write := λ path, negb (String.eqb path "")
|}.

(** A world holding the given files and replies, nothing logged yet. *)
Definition world (files : list (string * node)) (replies : list string) : World :=
  mkWorld (list_to_map files) replies [].

(** A world save, as a container and as text. *)
Definition world_sav : string := "PlZ2GVAS/Script/Pal.PalWorldSaveGame".
Definition world_json : string := "{	GVAS/Script/Pal.PalWorldSaveGame}".

(** The text of a save next to an older container, and what the user
    types when asked. *)
(** A file that is no container, next to an output to be kept. *)
Definition broken : World :=
  world [("broken.sav", File "garbage"); ("out.json", File "kept")] ["y"].

Definition both_files (replies : list string) : World :=
  world [("level.sav.json", File world_json); ("level.sav", File "old")]
        replies.

End Stub.

(** * The vocabulary of the properties *)

(** ** Strings *)

(** [sub] occurs in [s]: some text before it, some text after it. *)
Definition occurs (sub s : string) : Prop :=
  ∃ pre post, s = pre +:+ sub +:+ post.

(** The occurrence of [sub] behind [pre] is the first one: none starts
    earlier. *)
Definition leftmost (sub pre post : string) : Prop :=
  ∀ pre' post',
    pre +:+ sub +:+ post = pre' +:+ sub +:+ post' →
    (String.length pre ≤ String.length pre')%nat.

(** Every occurrence of [sub] met in one scan from the left is taken
    out; the scan resumes behind the occurrence. *)
Inductive removes_every (sub : string) : string → string → Prop :=
| removes_none s :
    ¬ occurs sub s → removes_every sub s s
| removes_next pre post out :
    leftmost sub pre post →
    removes_every sub post out →
    removes_every sub (pre +:+ sub +:+ post) (pre +:+ out).

(** The claim's reading of the default in the Text→Binary direction: one
    occurrence of [sub] is taken out of [s], if there is one. *)
Definition removes_one (sub s out : string) : Prop :=
  (∃ pre post, s = pre +:+ sub +:+ post ∧ out = pre +:+ post)
  ∨ (¬ occurs sub s ∧ out = s).

(** ** Runs and events *)

(** [post m w Q]: the run of [m] from [w] ends in an outcome and a world
    that satisfy [Q]. *)
Definition post {A} (m : M A) (w : World) (Q : outcome A → World → Prop) : Prop :=
  Q (run m w).1 (run m w).2.

Arguments post : simpl never.

(** What an event is. *)
Definition is_prompt (e : event) : bool :=
  match e with Input _ => true | _ => false end.

Definition is_write (e : event) : bool :=
  match e with OpenWrite _ | Written _ _ => true | _ => false end.

Definition is_file_access (e : event) : bool :=
  match e with OpenRead _ | OpenWrite _ | Written _ _ => true | _ => false end.

Definition is_enter (e : event) : bool :=
  match e with Enter _ => true | _ => false end.

Definition is_compress (e : event) : bool :=
  match e with Compress _ => true | _ => false end.

(** An event other than a line printed or a prompt issued. *)
Definition beyond_terminal (e : event) : bool :=
  match e with Print _ | Input _ => false | _ => true end.

(** [none_of kind ev]: no event of [ev] is of that kind. *)
Definition none_of (kind : event → bool) (ev : list event) : Prop :=
  Forall (λ e, kind e = false) ev.

(** The pipelines a run entered, in order. *)
Definition pipelines_run (lg : list event) : list Pipeline :=
  omap (λ e, match e with Enter p => Some p | _ => None end) lg.

(** ** The overwrite guard and the work behind it

    Each conversion function is its banner, the overwrite guard of lines
    79-83, 103-107 and 122-126, and the work that follows the guard. *)

Definition overwrite_warning (output_path : string) : string :=
  output_path +:+ " already exists, this will overwrite the file".

Definition overwrite_question : string :=
  "Are you sure you want to continue? (y/n): ".

Definition overwrite_guard (output_path : string) (force : bool) : M unit :=
  ex ← path_exists output_path ;
  if ex then
    print (output_path +:+ " already exists, this will overwrite the file") ;;
    if negb force then
      ok ← confirm_prompt "Are you sure you want to continue?" ;
      if negb ok then exit 1 else ret tt
    else ret tt
  else ret tt.

(** The world behind the guard: the files as they were, the replies
    still unread, and the banner and the guard's own lines logged. *)
Definition behind_guard (w : World) (replies : list string)
    (banner asked : list event) (output_path : string) : World :=
  mkWorld (fs w) replies
    (log w ++ banner ++ Print (overwrite_warning output_path) :: asked).

(** What a conversion logs before its guard. *)
Definition banner (p : Pipeline) (filename output_path : string) : list event :=
  [Enter p;
   Print (match p with
          | BinaryToText =>
              "Converting " +:+ filename +:+ " to JSON, saving to "
              +:+ output_path
          | TextToBinary =>
              "Converting " +:+ filename +:+ " to SAV, saving to "
              +:+ output_path
          end)].

(** The delegated steps a conversion takes before it opens its output. *)
Definition before_write (p : Pipeline) (s : step) : bool :=
  match p, s with
  | BinaryToText, (Decompress | Parse) => true
  | TextToBinary, (Decode | Load | Serialize | Compression) => true
  | _, _ => false
  end.

Section Parts.

Context (X : Extern).

(** Lines 108-117. *)
Definition sav_to_json_body (filename output_path : string)
    (minify : bool) : M unit :=
  print "Decompressing sav file" ;;
  data ← read_file X filename ;
  '(raw_gvas, _) ← delegate Decompress (decompress_sav_to_gvas X data) ;
  print "Loading GVAS file" ;;
  gvas_file ← delegate Parse (GvasFile_read X raw_gvas) ;
  print ("Writing JSON to " +:+ output_path) ;;
  open_write X output_path ;;
  let indent := if minify then None else Some "	" in
  obj ← delegate Dump (GvasFile_dump X gvas_file) ;
  let '(text, finished) := json_dump X obj indent in
  store output_path text ;;
  if finished then emit (Written output_path text)
  else raise (Delegated Encode).

(** Lines 84-98 and 130-144. *)
Definition obj_to_sav_body (data : Obj X) (output_path : string) : M unit :=
  gvas_file ← delegate Load (GvasFile_load X data) ;
  print "Compressing SAV file" ;;
  let save_type := save_type_of (classify (save_game_class_name X gvas_file)) in
  raw ← delegate Serialize (GvasFile_write X gvas_file) ;
  emit (Compress save_type) ;;
  sav_file ← delegate Compression (compress_gvas_to_sav X raw save_type) ;
  print ("Writing SAV file to " +:+ output_path) ;;
  open_write X output_path ;;
  store output_path sav_file ;;
  emit (Written output_path sav_file).

(** Lines 127-144. *)
Definition json_to_sav_body (filename output_path : string) : M unit :=
  print ("Loading JSON from " +:+ filename) ;;
  text ← read_file X filename ;
  data ← delegate Decode (json_load X text) ;
  obj_to_sav_body data output_path.

(** Either conversion, by its name. *)
Definition pipeline (p : Pipeline) (filename output_path : string)
    (force minify : bool) : M unit :=
  match p with
  | BinaryToText => convert_sav_to_json X filename output_path force minify
  | TextToBinary => convert_json_to_sav X filename output_path force
  end.

(** What a conversion does behind its guard. *)
Definition work (p : Pipeline) (filename output_path : string)
    (minify : bool) : M unit :=
  match p with
  | BinaryToText => sav_to_json_body filename output_path minify
  | TextToBinary => json_to_sav_body filename output_path
  end.

(** What every run of a conversion satisfies: how it can end, what it
    logs, and what has become of the files. *)
Definition pipeline_contract (p : Pipeline) (filename output_path : string)
    (force : bool) (w : World) (oc : outcome unit) (w' : World) : Prop :=
  (oc = Ok tt ∨ oc = Exit 1 ∨ ∃ e, oc = Raise e)
  ∧ ∃ ev, log w' = log w ++ Enter p :: ev
      ∧ none_of is_enter ev
      ∧ (force = true → stdin w' = stdin w ∧ none_of is_prompt ev)
      ∧ (oc = Ok tt →
         ∃ d, In (Written output_path d) ev
              ∧ fs w' = <[output_path := File d]> (fs w))
      ∧ (oc = Exit 1 → fs w' = fs w ∧ none_of is_file_access ev)
      ∧ (∀ s, before_write p s = true → oc = Raise (Delegated s) →
         fs w' = fs w ∧ none_of is_write ev)
      ∧ (∀ st, In (Compress st) ev →
         p = TextToBinary
         ∧ ∃ text data g,
             fs w !! filename = Some (File text)
             ∧ json_load X text = Some data
             ∧ GvasFile_load X data = Some g
             ∧ st = save_type_of (classify (save_game_class_name X g))).

End Parts.

(** ** Paths *)

(** An event that opens a file opens one of the listed paths: [reads]
    for reading, [writes] for writing. *)
Definition within (reads writes : list string) (e : event) : Prop :=
  match e with
  | OpenRead p => In p reads
  | OpenWrite p | Written p _ => In p writes
  | _ => True
  end.

(** What a computation leaves of the world when it works on
    [filename] and [output_path]: a log grown by events that stay with
    these two paths, and the files as they were when nothing was opened
    for writing. *)
Definition frame_contract (filename output_path : string) (w : World)
    (oc : outcome unit) (w' : World) : Prop :=
  ∃ ev, log w' = log w ++ ev
    ∧ Forall (within [filename] [output_path]) ev
    ∧ (none_of is_write ev → fs w' = fs w).

(** ** An encoder that gives up

    The stand-in for [lib/], with an encoder that raises at a ['!'] in
    the document once the opening brace has reached the file. *)


(** ** The call of the compressor *)

(** The three ways past the overwrite guard: nothing is at the output
    path, [force] is on, or the first reply that casefolds to ["y"] or
    ["n"] casefolds to ["y"]. *)
Definition guard_lets_pass (output_path : string) (force : bool)
    (w : World) : Prop :=
  fs w !! output_path = None
  ∨ force = true
  ∨ ∃ bad r rest,
      stdin w = bad ++ r :: rest
      ∧ Forall (λ s, casefold s ≠ "y" ∧ casefold s ≠ "n") bad
      ∧ casefold r = "y".

(** What the answer of the compressor to [raw] and the discriminator
    [st] makes of a conversion started in [w]: when the call fails the
    run ends in its exception with the files as they were; when it
    returns a container, the run writes that container to the output
    path and returns, unless the output cannot be opened. *)
Definition compressor_decides (X : Extern) (raw : Raw X) (st : Z)
    (output_path : string) (w : World) (oc : outcome unit) (w' : World) : Prop :=
  match compress_gvas_to_sav X raw st with
  | None => oc = Raise (Delegated Compression) ∧ fs w' = fs w
  | Some sav =>
      (oc = Ok tt ∧ fs w' = <[output_path := File sav]> (fs w))
      ∨ (oc = Raise (OSError output_path) ∧ fs w' = fs w)
  end.

(** ** Requests *)

(** The resolver in the words of the specification: both flags are an
    error; else a flag decides; else the suffix decides; else nothing
    is selected. *)
Definition resolve (args : Args) : option Pipeline :=
  if to_json args then Some BinaryToText
  else if from_json args then Some TextToBinary
  else if endswith (filename args) ".sav" then Some BinaryToText
  else if endswith (filename args) ".json" then Some TextToBinary
  else None.

(** The request passes the checks of lines 43-52. *)
Definition passes_checks (args : Args) (w : World) : Prop :=
  to_json args && from_json args = false
  ∧ ∃ data, fs w !! filename args = Some (File data).

(** No flag is set against the suffix of the input name. *)
Definition flag_agrees_with_suffix (args : Args) : Prop :=
  (to_json args = true → endswith (filename args) ".json" = false)
  ∧ (from_json args = true → endswith (filename args) ".sav" = false).

Definition with_minify (minify : bool) (args : Args) : Args :=
  mkArgs (filename args) (to_json args) (from_json args) (output args)
         (force args) minify.

(** * Properties *)

(** ** Strings *)

Lemma append_cons (c : ascii) (a b : string) :
  String c a +:+ b = String c (a +:+ b).
Proof. reflexivity. Qed.

Lemma append_nil_l (s : string) : "" +:+ s = s.
Proof. reflexivity. Qed.

Lemma append_nil_r (s : string) : s +:+ "" = s.
Proof.
  induction s as [|c s IH]; [reflexivity | now rewrite append_cons, IH].
Qed.

Lemma append_assoc (a b c : string) : (a +:+ b) +:+ c = a +:+ (b +:+ c).
Proof.
  induction a as [|x a IH]; [reflexivity | now rewrite !append_cons, IH].
Qed.

Lemma length_append (a b : string) :
  String.length (a +:+ b) = (String.length a + String.length b)%nat.
Proof.
  induction a as [|x a IH]; [reflexivity|].
  rewrite append_cons. simpl. now rewrite IH.
Qed.

Lemma prefix_append (p s : string) :
  String.prefix p s = true ↔ ∃ t, s = p +:+ t.
Proof.
  revert s. induction p as [|c p IH]; intros s; simpl.
  - split; [intros _; now exists s | now destruct s].
  - destruct s as [|d s]; simpl.
    + split; [discriminate | intros [t Ht]; discriminate].
    + destruct (ascii_dec c d) as [->|Hne].
      * rewrite IH. split; intros [t Ht]; exists t;
          rewrite ?append_cons in *; congruence.
      * split; [discriminate |].
        intros [t Ht]. rewrite append_cons in Ht. congruence.
Qed.

Lemma str_in_nil (sub : string) : str_in sub "" = String.prefix sub "".
Proof. unfold str_in. apply orb_false_r. Qed.

Lemma str_in_cons (sub : string) (c : ascii) (s : string) :
  str_in sub (String c s) = String.prefix sub (String c s) || str_in sub s.
Proof. reflexivity. Qed.

Lemma str_in_occurs (sub s : string) : str_in sub s = true ↔ occurs sub s.
Proof.
  induction s as [|c s IH]; [rewrite str_in_nil | rewrite str_in_cons].
  - rewrite prefix_append. split.
    + intros [t Ht]. now exists "", t.
    + intros (pre & post & H). destruct pre; [now exists post | discriminate].
  - rewrite orb_true_iff, IH, prefix_append. split.
    + intros [[t Ht] | (pre & post & H)].
      * now exists "", t.
      * exists (String c pre), post. now rewrite append_cons, H.
    + intros (pre & post & H). destruct pre as [|d pre].
      * left. now exists post.
      * right. exists pre, post. rewrite append_cons in H. congruence.
Qed.

Lemma str_in_not_occurs (sub s : string) : str_in sub s = false ↔ ¬ occurs sub s.
Proof. rewrite <- str_in_occurs. now destruct (str_in sub s). Qed.

(** *** Classification *)

(** C7. The save-variant classifier is a total function of the class
    name alone: it answers [WorldOrLocal] exactly when the name contains
    ["Pal.PalWorldSaveGame"] or ["Pal.PalLocalWorldSaveGame"], and
    [Standard] for every other name; ["Pal.PalWorldSaveGame"] is
    [WorldOrLocal] and ["Other.Save"] is [Standard]. *)
Theorem classify_spec (class_name : string) :
  (classify class_name = WorldOrLocal ↔
     occurs "Pal.PalWorldSaveGame" class_name
     ∨ occurs "Pal.PalLocalWorldSaveGame" class_name)
  ∧ (classify class_name = Standard ↔
     ¬ (occurs "Pal.PalWorldSaveGame" class_name
        ∨ occurs "Pal.PalLocalWorldSaveGame" class_name))
  ∧ classify "Pal.PalWorldSaveGame" = WorldOrLocal
  ∧ classify "Other.Save" = Standard.
Proof.
  unfold classify.
  rewrite <- !str_in_occurs, <- orb_true_iff.
  destruct (str_in "Pal.PalWorldSaveGame" class_name
            || str_in "Pal.PalLocalWorldSaveGame" class_name).
  - repeat split; try reflexivity; try discriminate; intuition congruence.
  - repeat split; try reflexivity; try discriminate; intuition congruence.
Qed.

(** *** Suffixes *)

Lemma substring_skip (pre t : string) (n : nat) :
  String.substring (String.length pre) n (pre +:+ t) = String.substring 0 n t.
Proof. induction pre as [|c pre IH]; [reflexivity | now rewrite append_cons]. Qed.

Lemma substring_all (t : string) : String.substring 0 (String.length t) t = t.
Proof. induction t as [|c t IH]; simpl; [reflexivity | now rewrite IH]. Qed.

Lemma substring_split (s : string) (k : nat) :
  (k ≤ String.length s)%nat →
  s = String.substring 0 k s +:+ String.substring k (String.length s - k) s.
Proof.
  revert k. induction s as [|c s IH]; intros k Hk.
  - destruct k; reflexivity.
  - destruct k as [|k]; simpl in *.
    + now rewrite append_nil_l, substring_all.
    + rewrite append_cons. f_equal. apply IH. lia.
Qed.

Lemma endswith_append (s suffix : string) :
  endswith s suffix = true ↔ ∃ pre, s = pre +:+ suffix.
Proof.
  unfold endswith. rewrite andb_true_iff, Nat.leb_le, String.eqb_eq. split.
  - intros [Hle Hsub].
    exists (String.substring 0 (String.length s - String.length suffix) s).
    pose proof (substring_split s (String.length s - String.length suffix))
      as Hs.
    replace (String.length s - (String.length s - String.length suffix))%nat
      with (String.length suffix) in Hs by lia.
    rewrite Hsub in Hs. apply Hs. lia.
  - intros [pre ->]. rewrite length_append. split; [lia|].
    replace (String.length pre + String.length suffix - String.length suffix)%nat
      with (String.length pre) by lia.
    now rewrite substring_skip, substring_all.
Qed.

Lemma append_last_eq (p q : string) (a b : ascii) :
  p +:+ String a "" = q +:+ String b "" → a = b.
Proof.
  revert q. induction p as [|c p IH]; intros [|d q] H;
    rewrite ?append_cons, ?append_nil_l in H.
  - congruence.
  - destruct q; discriminate.
  - destruct p; discriminate.
  - apply (IH q). congruence.
Qed.

(** No name ends both in [".sav"] and in [".json"]. *)
Lemma endswith_sav_json (name : string) :
  endswith name ".sav" = true → endswith name ".json" = false.
Proof.
  intros [p Hp]%endswith_append.
  destruct (endswith name ".json") eqn:E; [|reflexivity].
  apply endswith_append in E as [q Hq]. subst name.
  change ".sav" with (".sa" +:+ "v") in Hq.
  change ".json" with (".jso" +:+ "n") in Hq.
  rewrite <- !append_assoc in Hq.
  apply append_last_eq in Hq. discriminate.
Qed.

(** *** [replace] *)

Lemma replace_from_skip (old new t s : string) :
  replace_from old new (String.length t) (t +:+ s) = replace_from old new 0 s.
Proof. induction t as [|c t IH]; [reflexivity | now rewrite append_cons]. Qed.

Lemma replace_from_match (old new rest : string) :
  old ≠ "" →
  replace_from old new 0 (old +:+ rest) = new +:+ replace_from old new 0 rest.
Proof.
  intros Hne. destruct old as [|c old']; [congruence|].
  assert (Hp : String.prefix (String c old') (String c old' +:+ rest) = true)
    by (apply prefix_append; now exists rest).
  rewrite append_cons in *. cbn [replace_from]. rewrite Hp.
  replace (String.length (String c old') - 1)%nat with (String.length old')
    by (simpl; lia).
  now rewrite replace_from_skip.
Qed.

Lemma replace_from_nomatch (old new : string) (c : ascii) (s : string) :
  String.prefix old (String c s) = false →
  replace_from old new 0 (String c s) = String c (replace_from old new 0 s).
Proof. intros H. cbn [replace_from]. now rewrite H. Qed.

Lemma replace_from_absent (old new s : string) :
  str_in old s = false → replace_from old new 0 s = s.
Proof.
  induction s as [|c s IH]; [reflexivity|].
  rewrite str_in_cons, orb_false_iff. intros [Hp Hin].
  rewrite replace_from_nomatch by assumption. now rewrite IH.
Qed.

Lemma leftmost_tail (sub : string) (c : ascii) (pre post : string) :
  leftmost sub (String c pre) post → leftmost sub pre post.
Proof.
  intros H pre' post' E.
  specialize (H (String c pre') post'). rewrite !append_cons, E in H.
  specialize (H eq_refl). simpl in H. lia.
Qed.

Lemma leftmost_nomatch (sub : string) (c : ascii) (pre post : string) :
  leftmost sub (String c pre) post →
  String.prefix sub (String c pre +:+ sub +:+ post) = false.
Proof.
  intros H. destruct (String.prefix sub _) eqn:E; [|reflexivity].
  apply prefix_append in E as [t Ht].
  specialize (H "" t). rewrite append_nil_l in H.
  specialize (H Ht). simpl in H. lia.
Qed.

Lemma replace_from_leftmost (old new pre post : string) :
  old ≠ "" → leftmost old pre post →
  replace_from old new 0 (pre +:+ old +:+ post)
  = pre +:+ new +:+ replace_from old new 0 post.
Proof.
  intros Hne. induction pre as [|c pre IH]; intros Hl.
  - rewrite !append_nil_l. now apply replace_from_match.
  - pose proof (leftmost_nomatch _ _ _ _ Hl) as Hp.
    rewrite append_cons in *.
    rewrite replace_from_nomatch by assumption.
    rewrite IH by (eapply leftmost_tail; eassumption).
    now rewrite append_cons.
Qed.

Lemma leftmost_exists (sub s : string) :
  str_in sub s = true →
  ∃ pre post, s = pre +:+ sub +:+ post ∧ leftmost sub pre post.
Proof.
  induction s as [|c s IH].
  - rewrite str_in_nil. intros [t Ht]%prefix_append.
    exists "", t. split; [assumption|]. intros ? ? _. simpl. lia.
  - rewrite str_in_cons. destruct (String.prefix sub (String c s)) eqn:Hp.
    + intros _. apply prefix_append in Hp as [t Ht].
      exists "", t. split; [assumption|]. intros ? ? _. simpl. lia.
    + simpl. intros (pre & post & -> & Hl)%IH.
      exists (String c pre), post. split; [now rewrite append_cons|].
      intros pre' post' E. destruct pre' as [|d pre'].
      * rewrite append_nil_l in E.
        assert (String.prefix sub (String c (pre +:+ sub +:+ post)) = true)
          by (apply prefix_append; exists post'; now rewrite <- append_cons).
        congruence.
      * rewrite !append_cons in E. injection E as _ E.
        specialize (Hl _ _ E). simpl. lia.
Qed.

Lemma replace_removes_every (s old : string) :
  old ≠ "" → removes_every old s (replace s old "").
Proof.
  intros Hne.
  assert (Hr : replace s old "" = replace_from old "" 0 s)
    by (destruct old; [congruence | reflexivity]).
  rewrite Hr. clear Hr.
  remember (String.length s) as n eqn:Hn.
  revert s Hn. induction n as [n IH] using lt_wf_ind. intros s Hn.
  destruct (str_in old s) eqn:Hin.
  - apply leftmost_exists in Hin as (pre & post & -> & Hl).
    rewrite replace_from_leftmost by assumption. rewrite append_nil_l.
    apply removes_next; [assumption|].
    apply (IH (String.length post)); [|reflexivity].
    subst n. rewrite !length_append.
    destruct old; [congruence | simpl; lia].
  - rewrite replace_from_absent by assumption.
    apply removes_none. now apply str_in_not_occurs.
Qed.

Lemma append_same_length (a b a' b' : string) :
  a +:+ b = a' +:+ b' → String.length a = String.length a' →
  a = a' ∧ b = b'.
Proof.
  revert a'. induction a as [|c a IH]; intros [|d a'] E L;
    try discriminate L.
  - now rewrite !append_nil_l in E.
  - rewrite !append_cons in E. injection E as -> E.
    injection L as L. destruct (IH _ E L) as [-> ->]. now split.
Qed.

(** The relation names one result only. *)
Lemma removes_every_functional (sub s out1 out2 : string) :
  removes_every sub s out1 → removes_every sub s out2 → out1 = out2.
Proof.
  intros H1. revert out2.
  induction H1 as [s Hn | pre post out Hl H1 IH]; intros out2 H2.
  - inversion H2 as [|pre' post' out' Hl' H' E]; subst; [reflexivity|].
    exfalso. apply Hn. now exists pre', post'.
  - inversion H2 as [s' Hn E|pre' post' out' Hl' H' E]; subst.
    + exfalso. apply Hn. now exists pre, post.
    + pose proof (Hl _ _ (eq_sym E)). pose proof (Hl' _ _ E).
      destruct (append_same_length _ _ _ _ E) as [-> E2]; [lia|].
      apply String.app_inj in E2 as ->. f_equal. now apply IH.
Qed.

(** *** Output paths *)

(** C2, as stated, fails: of two occurrences of [".json"] both go, and
    an empty override is not used. *)
Lemma output_path_not_one_removal :
  output_path_from_json (mkArgs "a.json.json" false false None false false) = "a"
  ∧ ¬ removes_one ".json" "a.json.json"
        (output_path_from_json
           (mkArgs "a.json.json" false false None false false))
  ∧ output_path_to_json (mkArgs "save.sav" false false (Some "") false false)
    ≠ "".
Proof.
  split; [reflexivity|]. split; [|discriminate].
  change (output_path_from_json _) with "a".
  intros [(pre & post & E1 & E2) | [Hn _]].
  - apply (f_equal String.length) in E1, E2.
    rewrite !length_append in E1. rewrite length_append in E2.
    simpl in E1, E2. lia.
  - apply Hn. now exists "a", ".json".
Qed.

(** C2, amended. A non-empty override is the output path in both
    directions. Without one (or with an empty one) the Binary→Text path
    is the input name followed by [".json"], and the Text→Binary path is
    the input name with every occurrence of [".json"] met in one scan
    from the left taken out: ["save.sav"] gives ["save.sav.json"],
    ["profile.json"] gives ["profile"], ["a.json.json"] gives ["a"]. *)
Theorem output_path_derivation (args : Args) :
  match output args with
  | Some (String c o) =>
      output_path_to_json args = String c o
      ∧ output_path_from_json args = String c o
  | _ =>
      output_path_to_json args = filename args +:+ ".json"
      ∧ removes_every ".json" (filename args) (output_path_from_json args)
  end
  ∧ output_path_to_json (mkArgs "save.sav" false false None false false)
    = "save.sav.json"
  ∧ output_path_from_json (mkArgs "profile.json" false false None false false)
    = "profile"
  ∧ output_path_from_json (mkArgs "a.json.json" false false None false false)
    = "a".
Proof.
  split; [|repeat split].
  unfold output_path_to_json, output_path_from_json.
  destruct (output args) as [[|c o]|]; simpl;
    (split; [reflexivity|]); try reflexivity;
    apply replace_removes_every; discriminate.
Qed.

(** ** Reasoning about runs *)

Lemma run_bind {A B} (m : M A) (f : A → M B) (w : World) :
  run (bind m f) w =
  match run m w with
  | (Ok a, w') => run (f a) w'
  | (Exit c, w') => (Exit c, w')
  | (Raise e, w') => (Raise e, w')
  end.
Proof. reflexivity. Qed.

Lemma post_bind {A B} (m : M A) (f : A → M B) (w : World)
    (Q : outcome B → World → Prop) :
  post m w (λ o w',
    match o with
    | Ok a => post (f a) w' Q
    | Exit c => Q (Exit c) w'
    | Raise e => Q (Raise e) w'
    end) →
  post (bind m f) w Q.
Proof.
  unfold post. rewrite run_bind.
  destruct (run m w) as [[a|c|e] w']; simpl; auto.
Qed.

Lemma post_mono {A} (m : M A) (w : World) (Q Q' : outcome A → World → Prop) :
  post m w Q → (∀ o w', Q o w' → Q' o w') → post m w Q'.
Proof. unfold post. auto. Qed.

Lemma none_of_nil (kind : event → bool) : none_of kind [].
Proof. constructor. Qed.

Lemma none_of_cons (kind : event → bool) (e : event) (ev : list event) :
  kind e = false → none_of kind ev → none_of kind (e :: ev).
Proof. now constructor. Qed.

Lemma none_of_app (kind : event → bool) (ev1 ev2 : list event) :
  none_of kind ev1 → none_of kind ev2 → none_of kind (ev1 ++ ev2).
Proof. intros. now apply Forall_app. Qed.

Lemma none_of_replicate (kind : event → bool) (n : nat) (e : event) :
  kind e = false → none_of kind (replicate n e).
Proof. intros. now apply Forall_replicate. Qed.

Lemma none_of_In (kind : event → bool) (ev : list event) (e : event) :
  none_of kind ev → In e ev → kind e = false.
Proof. intros H Hin. now apply (proj1 (List.Forall_forall _ _) H). Qed.

Create HintDb events.
#[local] Hint Resolve none_of_nil none_of_cons none_of_app none_of_replicate
  : events.

Lemma pipelines_run_none (ev : list event) :
  none_of is_enter ev → pipelines_run ev = [].
Proof.
  induction 1 as [|e ev He _ IH]; [reflexivity|].
  destruct e; try discriminate He; exact IH.
Qed.

(** *** The loop of [confirm_prompt] *)

Lemma confirm_loop_until (prompt : string) (bad : list string) (r : string)
    (rest : list string) (lg : list event) :
  Forall (λ s, is_y_or_n (casefold s) = false) bad →
  is_y_or_n (casefold r) = true →
  confirm_loop prompt (bad ++ r :: rest) lg
  = (Ok (String.eqb (casefold r) "y"), rest,
     lg ++ replicate (S (length bad)) (Input prompt)).
Proof.
  intros Hbad Hr. revert lg.
  induction Hbad as [|s bad Hs Hbad IH]; intros lg; simpl.
  - now rewrite Hr.
  - rewrite Hs, IH. now rewrite <- app_assoc.
Qed.

Lemma confirm_loop_inv (prompt : string) (replies : list string)
    (lg : list event) :
  ∃ n, (confirm_loop prompt replies lg).2
       = lg ++ replicate (S n) (Input prompt)
       ∧ ((confirm_loop prompt replies lg).1.1 = Raise EOFError
          ∨ ∃ b, (confirm_loop prompt replies lg).1.1 = Ok b).
Proof.
  revert lg. induction replies as [|r rest IH]; intros lg; simpl.
  - exists 0%nat. split; [reflexivity | now left].
  - destruct (is_y_or_n (casefold r)); simpl.
    + exists 0%nat. split; [reflexivity | right; eauto].
    + destruct (IH (lg ++ [Input prompt])) as (n & Hlog & Ho).
      exists (S n). rewrite Hlog, <- app_assoc. now split.
Qed.

Lemma post_prim {A} (m : M A) (w : World) (Q : outcome A → World → Prop) :
  Q (run m w).1 (run m w).2 → post m w Q.
Proof. exact id. Qed.

Lemma post_confirm_prompt (question : string) (w : World)
    (Q : outcome bool → World → Prop) :
  (∀ o rest n,
      o = Raise EOFError ∨ (∃ b, o = Ok b) →
      Q o (mkWorld (fs w) rest
             (log w ++ replicate (S n) (Input (question +:+ " (y/n): "))))) →
  post (confirm_prompt question) w Q.
Proof.
  intros H. unfold post, confirm_prompt. simpl.
  destruct (confirm_loop_inv (question +:+ " (y/n): ") (stdin w) (log w))
    as (n & Hlog & Ho).
  destruct (confirm_loop _ _ _) as [[o rest] lg]. simpl in *. subst lg.
  now apply H.
Qed.

(** One step of a run: the sequencing rule, a case split on what the
    step branches on, or the effect of a primitive. *)
Ltac post_step :=
  lazymatch goal with
  | |- post (bind _ _) _ _ => apply post_bind
  | |- post (if ?b then _ else _) _ _ => destruct b eqn:?
  | |- post (let '(_, _) := ?p in _) _ _ => destruct p eqn:?
  | |- post (delegate _ ?r) _ _ => destruct r eqn:?; apply post_prim; simpl
  | |- post (read_file ?X ?p) _ _ =>
      apply post_prim; unfold read_file; simpl;
      lazymatch goal with
      | |- context [match ?m !! p with _ => _ end] =>
          destruct (m !! p) as [[?|]|] eqn:?; simpl
      end;
      try lazymatch goal with
      | |- context [if may_read X p then _ else _] =>
          destruct (may_read X p) eqn:?; simpl
      end
  | |- post (open_write ?X ?p) _ _ =>
      apply post_prim; unfold open_write; simpl;
      lazymatch goal with
      | |- context [match ?m !! p with _ => _ end] =>
          destruct (m !! p) as [[?|]|] eqn:?; simpl
      end;
      try lazymatch goal with
      | |- context [if may_write X p then _ else _] =>
          destruct (may_write X p) eqn:?; simpl
      end
  | |- post (confirm_prompt _) _ _ =>
      apply post_confirm_prompt; intros ? ? ? [-> | [? ->]]
  | |- post _ _ _ => apply post_prim; simpl
  end.

(** The log of the world reached, as the log at the start followed by
    the events of the run. *)
Ltac log_normal := rewrite <- ?app_assoc; simpl.

(** ** The parts of a conversion *)

Section Runs.

Context (X : Extern).

Lemma convert_sav_to_json_split (filename output_path : string)
    (force minify : bool) (w : World) :
  run (convert_sav_to_json X filename output_path force minify) w
  = run (emit (Enter BinaryToText) ;;
         print ("Converting " +:+ filename +:+ " to JSON, saving to "
                +:+ output_path) ;;
         overwrite_guard output_path force ;;
         sav_to_json_body X filename output_path minify) w.
Proof. reflexivity. Qed.

Lemma convert_json_to_sav_split (filename output_path : string)
    (force : bool) (w : World) :
  run (convert_json_to_sav X filename output_path force) w
  = run (emit (Enter TextToBinary) ;;
         print ("Converting " +:+ filename +:+ " to SAV, saving to "
                +:+ output_path) ;;
         overwrite_guard output_path force ;;
         json_to_sav_body X filename output_path) w.
Proof. reflexivity. Qed.

Lemma convert_obj_to_sav_split (obj : Obj X) (output_path : string)
    (force : bool) (w : World) :
  run (convert_obj_to_sav X obj output_path force) w
  = run (overwrite_guard output_path force ;;
         obj_to_sav_body X obj output_path) w.
Proof. reflexivity. Qed.

End Runs.

(** *** The guard *)

Lemma guard_absent (output_path : string) (force : bool) (w : World) :
  fs w !! output_path = None →
  run (overwrite_guard output_path force) w = (Ok tt, w).
Proof.
  intros H. unfold overwrite_guard. rewrite run_bind. simpl. now rewrite H.
Qed.

Lemma guard_forced (output_path : string) (w : World) :
  is_Some (fs w !! output_path) →
  run (overwrite_guard output_path true) w
  = (Ok tt,
     mkWorld (fs w) (stdin w)
       (log w ++ [Print (overwrite_warning output_path)])).
Proof.
  intros [n H]. unfold overwrite_guard. rewrite run_bind. simpl. now rewrite H.
Qed.

Lemma guard_reply (output_path : string) (w : World) (bad : list string)
    (r : string) (rest : list string) :
  is_Some (fs w !! output_path) →
  stdin w = bad ++ r :: rest →
  Forall (λ s, is_y_or_n (casefold s) = false) bad →
  is_y_or_n (casefold r) = true →
  run (overwrite_guard output_path false) w
  = (if String.eqb (casefold r) "y" then Ok tt else Exit 1,
     mkWorld (fs w) rest
       (log w ++ Print (overwrite_warning output_path)
              :: replicate (S (length bad)) (Input overwrite_question))).
Proof.
  intros [n H] Hin Hbad Hr. unfold overwrite_guard. rewrite run_bind. simpl.
  rewrite H. simpl. rewrite Hin.
  rewrite (confirm_loop_until _ bad r rest _ Hbad Hr).
  destruct (String.eqb (casefold r) "y"); simpl; log_normal; reflexivity.
Qed.

(** Whatever the guard does, it leaves the files alone and only prints
    and prompts; when forced it does not prompt. *)
Lemma guard_post (output_path : string) (force : bool) (w : World) :
  post (overwrite_guard output_path force) w (λ oc w',
    fs w' = fs w
    ∧ (oc = Ok tt ∨ oc = Exit 1 ∨ oc = Raise EOFError)
    ∧ ∃ ev, log w' = log w ++ ev
        ∧ none_of beyond_terminal ev
        ∧ (force = true → stdin w' = stdin w ∧ none_of is_prompt ev)).
Proof.
  unfold overwrite_guard. repeat post_step; simpl;
    (split; [reflexivity|]); (split; [auto|]); log_normal;
    (eexists; split; [try reflexivity; exact (eq_sym (List.app_nil_r _))|]);
    (split; [auto 10 with events|]);
    intros ->; try discriminate; auto with events.
Qed.

(** *** The work behind the guard *)

Section Contracts.

Context (X : Extern).

(** The Binary→Text work never prompts, never exits on its own, writes
    the output when it returns, and has not touched the output when
    decompression or parsing fails. *)
Lemma sav_to_json_body_post (filename output_path : string) (minify : bool)
    (w : World) :
  post (sav_to_json_body X filename output_path minify) w (λ oc w',
    stdin w' = stdin w
    ∧ (∀ c, oc ≠ Exit c)
    ∧ ∃ ev, log w' = log w ++ ev
        ∧ none_of is_prompt ev ∧ none_of is_enter ev
        ∧ none_of is_compress ev
        ∧ (oc = Ok tt →
           ∃ d, In (Written output_path d) ev
                ∧ fs w' = <[output_path := File d]> (fs w))
        ∧ (oc = Raise (Delegated Decompress) ∨ oc = Raise (Delegated Parse) →
           fs w' = fs w ∧ none_of is_write ev)).
Proof.
  unfold sav_to_json_body. repeat post_step; simpl;
    (split; [reflexivity|]); (split; [discriminate|]); log_normal;
    (eexists; split; [reflexivity|]);
    (split; [auto 20 with events|]); (split; [auto 20 with events|]);
    (split; [auto 20 with events|]);
    (split; [intros Hoc;
             first [discriminate Hoc
                   | eexists; split; [simpl; auto 20 | apply insert_insert_eq]]
            | intros [Hoc|Hoc]; try discriminate Hoc; auto 20 with events]).
Qed.

Lemma obj_to_sav_body_post (data : Obj X) (output_path : string) (w : World) :
  post (obj_to_sav_body X data output_path) w (λ oc w',
    stdin w' = stdin w
    ∧ (∀ c, oc ≠ Exit c)
    ∧ ∃ ev, log w' = log w ++ ev
        ∧ none_of is_prompt ev ∧ none_of is_enter ev
        ∧ (oc = Ok tt →
           ∃ d, In (Written output_path d) ev
                ∧ fs w' = <[output_path := File d]> (fs w))
        ∧ ((∃ s, oc = Raise (Delegated s)) →
           fs w' = fs w ∧ none_of is_write ev)
        ∧ (∀ st, In (Compress st) ev →
           ∃ g, GvasFile_load X data = Some g
                ∧ st = save_type_of (classify (save_game_class_name X g)))).
Proof.
  unfold obj_to_sav_body. repeat post_step; simpl;
    (split; [reflexivity|]); (split; [discriminate|]); log_normal;
    (eexists; split; [try reflexivity; exact (eq_sym (List.app_nil_r _))|]);
    (split; [auto 20 with events|]); (split; [auto 20 with events|]);
    (split; [intros Hoc;
             first [discriminate Hoc
                   | eexists; split; [simpl; auto 20 | apply insert_insert_eq]]
            |]);
    (split; [intros [? Hoc]; try discriminate Hoc; auto 20 with events|]);
    intros ? Hin; simpl in Hin; decompose [or] Hin; try contradiction;
    simplify_eq; eauto.
Qed.

End Contracts.

Lemma post_ext {A} (m m' : M A) (w w0 : World)
    (Q : outcome A → World → Prop) :
  run m w = run m' w0 → post m' w0 Q → post m w Q.
Proof. unfold post. now intros ->. Qed.

Lemma none_of_weaken (kind kind' : event → bool) (ev : list event) :
  (∀ e, kind e = false → kind' e = false) →
  none_of kind ev → none_of kind' ev.
Proof. intros Hk H. eapply Forall_impl; [exact H | exact Hk]. Qed.

Lemma guard_no_enter (ev : list event) :
  none_of beyond_terminal ev → none_of is_enter ev.
Proof. apply none_of_weaken. now intros []. Qed.

Lemma guard_no_compress (ev : list event) :
  none_of beyond_terminal ev → none_of is_compress ev.
Proof. apply none_of_weaken. now intros []. Qed.

Lemma guard_no_file_access (ev : list event) :
  none_of beyond_terminal ev → none_of is_file_access ev.
Proof. apply none_of_weaken. now intros []. Qed.

Lemma file_access_no_write (ev : list event) :
  none_of is_file_access ev → none_of is_write ev.
Proof. apply none_of_weaken. now intros []. Qed.

#[local] Hint Resolve guard_no_enter guard_no_compress guard_no_file_access
  file_access_no_write : events.

Section Pipelines.

Context (X : Extern).

Lemma json_to_sav_body_post (filename output_path : string) (w : World) :
  post (json_to_sav_body X filename output_path) w (λ oc w',
    stdin w' = stdin w
    ∧ (∀ c, oc ≠ Exit c)
    ∧ ∃ ev, log w' = log w ++ ev
        ∧ none_of is_prompt ev ∧ none_of is_enter ev
        ∧ (oc = Ok tt →
           ∃ d, In (Written output_path d) ev
                ∧ fs w' = <[output_path := File d]> (fs w))
        ∧ ((∃ s, oc = Raise (Delegated s)) →
           fs w' = fs w ∧ none_of is_write ev)
        ∧ (∀ st, In (Compress st) ev →
           ∃ text data g,
             fs w !! filename = Some (File text)
             ∧ json_load X text = Some data
             ∧ GvasFile_load X data = Some g
             ∧ st = save_type_of (classify (save_game_class_name X g)))).
Proof.
  unfold json_to_sav_body, obj_to_sav_body. repeat post_step; simpl;
    (split; [reflexivity|]); (split; [discriminate|]); log_normal;
    (eexists; split; [reflexivity|]);
    (split; [auto 20 with events|]); (split; [auto 20 with events|]);
    (split; [intros Hoc;
             first [discriminate Hoc
                   | eexists; split; [simpl; auto 20 | apply insert_insert_eq]]
            |]);
    (split; [intros [? Hoc]; try discriminate Hoc; auto 20 with events|]);
    intros ? Hin; simpl in Hin; decompose [or] Hin; try contradiction;
    simplify_eq; eauto 10.
Qed.

Lemma pipeline_split (p : Pipeline) (filename output_path : string)
    (force minify : bool) (w : World) :
  run (pipeline X p filename output_path force minify) w
  = run (overwrite_guard output_path force ;;
         work X p filename output_path minify)
        (mkWorld (fs w) (stdin w) (log w ++ banner p filename output_path)).
Proof. destruct p; simpl; log_normal; reflexivity. Qed.

Lemma work_post (p : Pipeline) (filename output_path : string)
    (minify : bool) (w : World) :
  post (work X p filename output_path minify) w (λ oc w',
    stdin w' = stdin w
    ∧ (∀ c, oc ≠ Exit c)
    ∧ ∃ ev, log w' = log w ++ ev
        ∧ none_of is_prompt ev ∧ none_of is_enter ev
        ∧ (oc = Ok tt →
           ∃ d, In (Written output_path d) ev
                ∧ fs w' = <[output_path := File d]> (fs w))
        ∧ (∀ s, before_write p s = true → oc = Raise (Delegated s) →
           fs w' = fs w ∧ none_of is_write ev)
        ∧ (∀ st, In (Compress st) ev →
           p = TextToBinary
           ∧ ∃ text data g,
               fs w !! filename = Some (File text)
               ∧ json_load X text = Some data
               ∧ GvasFile_load X data = Some g
               ∧ st = save_type_of (classify (save_game_class_name X g)))).
Proof.
  destruct p; simpl.
  - eapply post_mono; [apply sav_to_json_body_post|]. simpl.
    intros oc w' (Hin & Hex & ev & Hlog & Hp & He & Hc & Hok & Hfail).
    split; [assumption|]. split; [assumption|].
    exists ev. repeat (split; [assumption|]). split.
    + intros [] Hs Hoc; try discriminate Hs; apply Hfail; auto.
    + intros st Hst. apply (none_of_In _ _ _ Hc) in Hst. discriminate Hst.
  - eapply post_mono; [apply json_to_sav_body_post|]. simpl.
    intros oc w' (Hin & Hex & ev & Hlog & Hp & He & Hok & Hfail & Hc).
    split; [assumption|]. split; [assumption|].
    exists ev. repeat (split; [assumption|]). split; [eauto|].
    intros st Hst. split; [reflexivity | now apply Hc].
Qed.

Lemma pipeline_post (p : Pipeline) (filename output_path : string)
    (force minify : bool) (w : World) :
  post (pipeline X p filename output_path force minify) w
    (pipeline_contract X p filename output_path force w).
Proof.
  unfold pipeline_contract.
  eapply post_ext; [apply pipeline_split|].
  apply post_bind.
  eapply post_mono; [apply guard_post|]. simpl.
  intros oc w1 (Hfs & Hoc & ev & Hlog & Hev & Hforce).
  assert (Hg : ∀ st, ¬ In (Compress st) ev).
  { intros st Hst. apply guard_no_compress in Hev.
    apply (none_of_In _ _ _ Hev) in Hst. discriminate Hst. }
  destruct Hoc as [-> | [-> | ->]].
  - eapply post_mono; [apply work_post|]. simpl.
    intros oc w2 (Hin & Hex & ev2 & Hlog2 & Hp & He & Hok & Hfail & Hc).
    split; [destruct oc as [[]|c|e]; eauto; now destruct (Hex c)|].
    exists (tail (banner p filename output_path) ++ ev ++ ev2).
    rewrite Hlog2, Hlog. log_normal.
    split; [reflexivity|].
    split; [auto 10 with events|].
    split; [intros Hf; destruct (Hforce Hf); split;
            [congruence | auto 10 with events]|].
    split; [intros Hoc; destruct (Hok Hoc) as (d & Hd & Hfs2); exists d;
            split; [right; apply in_or_app; now right | congruence]|].
    split; [intros ->; now destruct (Hex 1%Z)|].
    split.
    + intros s Hs Hoc. destruct (Hfail s Hs Hoc). split; [congruence|].
      auto 10 with events.
    + intros st [Hst | [Hst | Hst]%in_app_or]; [discriminate Hst | |].
      * now destruct (Hg st).
      * destruct (Hc st Hst) as (Hp' & text & data & g & Hf' & Hrest).
        split; [assumption|]. exists text, data, g.
        split; [congruence | assumption].
  - split; [auto|].
    exists (tail (banner p filename output_path) ++ ev).
    rewrite Hlog. log_normal. split; [reflexivity|].
    split; [auto 10 with events|].
    split; [intros Hf; destruct (Hforce Hf); auto 10 with events|].
    split; [discriminate|].
    split; [intros _; auto 10 with events|].
    split; [discriminate|].
    intros st [Hst | Hst]; [discriminate Hst | now destruct (Hg st)].
  - split; [eauto|].
    exists (tail (banner p filename output_path) ++ ev).
    rewrite Hlog. log_normal. split; [reflexivity|].
    split; [auto 10 with events|].
    split; [intros Hf; destruct (Hforce Hf); auto 10 with events|].
    split; [discriminate|]. split; [discriminate|].
    split; [discriminate|].
    intros st [Hst | Hst]; [discriminate Hst | now destruct (Hg st)].
Qed.

Lemma convert_sav_to_json_post (filename output_path : string)
    (force minify : bool) (w : World) :
  post (convert_sav_to_json X filename output_path force minify) w
    (pipeline_contract X BinaryToText filename output_path force w).
Proof.
  exact (pipeline_post BinaryToText filename output_path force minify w).
Qed.

Lemma convert_json_to_sav_post (filename output_path : string)
    (force : bool) (w : World) :
  post (convert_json_to_sav X filename output_path force) w
    (pipeline_contract X TextToBinary filename output_path force w).
Proof.
  exact (pipeline_post TextToBinary filename output_path force false w).
Qed.

End Pipelines.

(** ** The overwrite guard of a conversion *)

Lemma is_y_or_n_true (reply : string) :
  is_y_or_n reply = true ↔ reply = "y" ∨ reply = "n".
Proof. unfold is_y_or_n. now rewrite orb_true_iff, !String.eqb_eq. Qed.

Lemma is_y_or_n_false (reply : string) :
  is_y_or_n reply = false ↔ reply ≠ "y" ∧ reply ≠ "n".
Proof.
  unfold is_y_or_n. now rewrite orb_false_iff, !String.eqb_neq.
Qed.

Section Guarded.

Context (X : Extern).

(** C5. When the output path exists and [force] is off, the guard asks
    once for every reply that does not casefold to ["y"] or ["n"] and
    once more for the first that does. On ["n"] the conversion ends in
    [exit(1)] with every file as it was; on ["y"] it goes on with the
    work behind the guard. *)
Theorem overwrite_prompt (p : Pipeline) (filename output_path : string)
    (minify : bool) (w : World) (bad : list string) (r : string)
    (rest : list string) :
  is_Some (fs w !! output_path) →
  stdin w = bad ++ r :: rest →
  Forall (λ s, casefold s ≠ "y" ∧ casefold s ≠ "n") bad →
  casefold r = "y" ∨ casefold r = "n" →
  (casefold r = "n" →
     run (pipeline X p filename output_path false minify) w
     = (Exit 1,
        behind_guard w rest (banner p filename output_path)
          (replicate (S (length bad)) (Input overwrite_question))
          output_path))
  ∧ (casefold r = "y" →
     run (pipeline X p filename output_path false minify) w
     = run (work X p filename output_path minify)
         (behind_guard w rest (banner p filename output_path)
            (replicate (S (length bad)) (Input overwrite_question))
            output_path)).
Proof.
  intros Hex Hin Hbad Hr.
  assert (Hbad' : Forall (λ s, is_y_or_n (casefold s) = false) bad)
    by (eapply Forall_impl; [exact Hbad|];
        intros s Hs; now apply is_y_or_n_false).
  apply is_y_or_n_true in Hr.
  pose proof (guard_reply output_path
    (mkWorld (fs w) (stdin w) (log w ++ banner p filename output_path))
    bad r rest Hex Hin Hbad' Hr) as Hg.
  cbn [fs stdin log] in Hg. rewrite <- app_assoc in Hg.
  rewrite pipeline_split.
  split; intros Hc; rewrite Hc in Hg; rewrite run_bind, Hg; reflexivity.
Qed.

(** C8. When the output path exists and [force] is on, the conversion
    prints the warning, reads nothing from standard input, issues no
    prompt, and goes on with the work behind the guard, which writes
    the output. *)
Theorem forced_overwrite (p : Pipeline) (filename output_path : string)
    (minify : bool) (w : World) :
  is_Some (fs w !! output_path) →
  run (pipeline X p filename output_path true minify) w
  = run (work X p filename output_path minify)
      (behind_guard w (stdin w) (banner p filename output_path) []
         output_path)
  ∧ stdin (run (pipeline X p filename output_path true minify) w).2
    = stdin w
  ∧ ∃ ev,
      log (run (pipeline X p filename output_path true minify) w).2
      = log w ++ ev
      ∧ none_of is_prompt ev
      ∧ In (Print (overwrite_warning output_path)) ev
      ∧ ((run (pipeline X p filename output_path true minify) w).1 = Ok tt →
         ∃ d, In (Written output_path d) ev
              ∧ fs (run (pipeline X p filename output_path true minify) w).2
                !! output_path = Some (File d)).
Proof.
  intros Hex.
  pose proof (guard_forced output_path
    (mkWorld (fs w) (stdin w) (log w ++ banner p filename output_path))
    Hex) as Hg.
  cbn [fs stdin log] in Hg. rewrite <- app_assoc in Hg.
  assert (Hrun : run (pipeline X p filename output_path true minify) w
                 = run (work X p filename output_path minify)
                     (behind_guard w (stdin w)
                        (banner p filename output_path) [] output_path))
    by (rewrite pipeline_split, run_bind, Hg; reflexivity).
  split; [exact Hrun|]. rewrite Hrun.
  pose proof (work_post X p filename output_path minify
    (behind_guard w (stdin w) (banner p filename output_path) []
       output_path)) as Hw.
  unfold post in Hw.
  destruct Hw as (Hin & _ & ev & Hlog & Hp & _ & Hok & _).
  split; [exact Hin|].
  exists (banner p filename output_path
          ++ Print (overwrite_warning output_path) :: ev).
  split; [rewrite Hlog; simpl; now rewrite <- !app_assoc|].
  split; [apply none_of_app; [unfold banner|]; auto with events|].
  split; [apply in_or_app; right; now left|].
  intros Hoc. destruct (Hok Hoc) as (d & Hd & Hfs). exists d.
  split; [apply in_or_app; right; now right|].
  rewrite Hfs. apply lookup_insert_eq.
Qed.

(** Where the failure policy holds: when a conversion fails at a
    delegated step taken before the output is opened (decompression or
    parsing on the way to text; decoding, document reconstruction,
    re-serialization or compression on the way back), every file is as
    it was before the conversion, the output path included, and nothing
    was opened for writing. *)
Theorem delegated_failure_no_write (p : Pipeline)
    (filename output_path : string) (force minify : bool) (w : World)
    (s : step) :
  before_write p s = true →
  (run (pipeline X p filename output_path force minify) w).1
  = Raise (Delegated s) →
  fs (run (pipeline X p filename output_path force minify) w).2 = fs w
  ∧ ∃ ev,
      log (run (pipeline X p filename output_path force minify) w).2
      = log w ++ ev
      ∧ none_of is_write ev.
Proof.
  intros Hs Hoc.
  pose proof (pipeline_post X p filename output_path force minify w) as H.
  unfold post, pipeline_contract in H.
  destruct H as (_ & ev & Hlog & _ & _ & _ & _ & Hfail & _).
  destruct (Hfail s Hs Hoc) as [Hfs Hw].
  split; [exact Hfs|].
  exists (Enter p :: ev). split; [exact Hlog | auto with events].
Qed.

(** *** The discriminator and the call of the compressor *)

Lemma guard_lets_pass_run (output_path : string) (force : bool) (w : World) :
  guard_lets_pass output_path force w →
  ∃ rest said,
    run (overwrite_guard output_path force) w
    = (Ok tt, mkWorld (fs w) rest (log w ++ said)).
Proof.
  intros Hpass. destruct (fs w !! output_path) as [n|] eqn:Ho.
  - assert (Hex : is_Some (fs w !! output_path))
      by (rewrite Ho; now exists n).
    destruct force.
    + eexists _, _. now apply guard_forced.
    + destruct Hpass as [Hno | [Hf | (bad & r & rest & Hin & Hbad & Hr)]];
        [congruence | discriminate Hf |].
      assert (Hbad' : Forall (λ s, is_y_or_n (casefold s) = false) bad)
        by (eapply Forall_impl; [exact Hbad|];
            intros s Hs; now apply is_y_or_n_false).
      assert (Hr' : is_y_or_n (casefold r) = true)
        by (apply is_y_or_n_true; now left).
      pose proof (guard_reply output_path w bad r rest Hex Hin Hbad' Hr')
        as Hg.
      rewrite Hr in Hg. eexists _, _. exact Hg.
  - exists (stdin w), []. rewrite (guard_absent output_path force w Ho).
    destruct w. cbn [fs stdin log]. now rewrite List.app_nil_r.
Qed.

(** A leaf of the work behind the guard, from the call of the
    compressor on. *)
Ltac compressor_leaf :=
  unfold compressor_decides; cbn [fs];
  lazymatch goal with
  | H : compress_gvas_to_sav _ _ _ = _ |- _ => rewrite H
  end;
  lazymatch goal with
  | |- _ ∧ _ => split; reflexivity
  | |- (Ok tt = Ok tt ∧ _) ∨ _ =>
      left; split; [reflexivity | apply insert_insert_eq]
  | |- _ ∨ _ => right; split; reflexivity
  end.

Lemma obj_to_sav_body_compress (data : Obj X) (output_path : string)
    (w : World) :
  post (obj_to_sav_body X data output_path) w (λ oc w',
    ∃ ev, log w' = log w ++ ev
      ∧ (∀ st, In (Compress st) ev →
           ∃ g raw,
             GvasFile_load X data = Some g
             ∧ GvasFile_write X g = Some raw
             ∧ st = save_type_of (classify (save_game_class_name X g))
             ∧ compressor_decides X raw st output_path w oc w')
      ∧ (∀ g raw,
           GvasFile_load X data = Some g →
           GvasFile_write X g = Some raw →
           In (Compress (save_type_of (classify (save_game_class_name X g))))
              ev)).
Proof.
  unfold obj_to_sav_body. repeat post_step; simpl; log_normal;
    (eexists; split; [try reflexivity; exact (eq_sym (List.app_nil_r _))|]);
    (split;
     [intros st Hin; simpl in Hin; decompose [or] Hin; try contradiction;
      simplify_eq; eexists _, _;
      do 3 (split; [first [eassumption | reflexivity]|]); compressor_leaf
     |intros g' raw' Hg' Hraw'; simplify_eq; simpl; auto 10]).
Qed.

Lemma json_to_sav_body_compress (filename output_path : string) (w : World) :
  post (json_to_sav_body X filename output_path) w (λ oc w',
    ∃ ev, log w' = log w ++ ev
      ∧ (∀ st, In (Compress st) ev →
           ∃ text data g raw,
             fs w !! filename = Some (File text)
             ∧ json_load X text = Some data
             ∧ GvasFile_load X data = Some g
             ∧ GvasFile_write X g = Some raw
             ∧ st = save_type_of (classify (save_game_class_name X g))
             ∧ compressor_decides X raw st output_path w oc w')
      ∧ (∀ text data g raw,
           fs w !! filename = Some (File text) →
           may_read X filename = true →
           json_load X text = Some data →
           GvasFile_load X data = Some g →
           GvasFile_write X g = Some raw →
           In (Compress (save_type_of (classify (save_game_class_name X g))))
              ev)).
Proof.
  unfold json_to_sav_body, obj_to_sav_body. repeat post_step; simpl;
    log_normal; (eexists; split; [reflexivity|]);
    (split;
     [intros st Hin; simpl in Hin; decompose [or] Hin; try contradiction;
      simplify_eq; eexists _, _, _, _;
      do 5 (split; [first [eassumption | reflexivity]|]); compressor_leaf
     |intros text' data' g' raw' Hf' Hr' Hd' Hg' Hraw'; simplify_eq;
      simpl; auto 10]).
Qed.

Lemma no_compress_before_work (p : Pipeline) (filename output_path : string)
    (ev : list event) (st : Z) :
  none_of beyond_terminal ev →
  ¬ In (Compress st) (banner p filename output_path ++ ev).
Proof.
  intros Hev [Hin | Hin]%in_app_or.
  - destruct Hin as [Hin | [Hin | []]]; discriminate Hin.
  - apply guard_no_compress in Hev.
    apply (none_of_In _ _ _ Hev) in Hin. discriminate Hin.
Qed.

Lemma convert_json_to_sav_only (filename output_path : string)
    (force : bool) (w : World) :
  post (convert_json_to_sav X filename output_path force) w (λ oc w',
    ∃ ev, log w' = log w ++ ev
      ∧ ∀ st, In (Compress st) ev →
          ∃ text data g raw,
            fs w !! filename = Some (File text)
            ∧ json_load X text = Some data
            ∧ GvasFile_load X data = Some g
            ∧ GvasFile_write X g = Some raw
            ∧ st = save_type_of (classify (save_game_class_name X g))
            ∧ compressor_decides X raw st output_path w oc w').
Proof.
  eapply post_ext;
    [exact (pipeline_split X TextToBinary filename output_path force false w)|].
  apply post_bind. eapply post_mono; [apply guard_post|]. cbn beta.
  intros oc w1 (Hfs & Hoc & ev1 & Hlog1 & Hev1 & _).
  cbn [fs log] in Hfs, Hlog1.
  assert (Hstop : ∃ ev, log w1 = log w ++ ev ∧ ∀ st, ¬ In (Compress st) ev).
  { exists (banner TextToBinary filename output_path ++ ev1).
    split; [rewrite Hlog1; now rewrite <- app_assoc|].
    intros st. now apply no_compress_before_work. }
  destruct Hoc as [-> | [-> | ->]]; cbv beta iota;
    try (destruct Hstop as (ev & Hlog & Hnone); exists ev;
         split; [exact Hlog | intros st Hin; now destruct (Hnone st)]).
  unfold work.
  eapply post_mono; [apply json_to_sav_body_compress|]. cbn beta.
  intros oc w2 (ev2 & Hlog2 & Honly & _).
  exists (banner TextToBinary filename output_path ++ ev1 ++ ev2).
  split; [rewrite Hlog2, Hlog1; now rewrite <- !app_assoc|].
  intros st Hin. rewrite app_assoc in Hin. apply in_app_or in Hin as [Hin | Hin];
    [now apply no_compress_before_work in Hin|].
  destruct (Honly st Hin) as (text & data & g & raw & Hf & Hd & Hl & Hs & Hst
                              & Hdec).
  exists text, data, g, raw. rewrite Hfs in Hf.
  unfold compressor_decides in *. rewrite Hfs in Hdec. auto 10.
Qed.

Lemma convert_json_to_sav_reached (filename output_path : string)
    (force : bool) (w : World) (text : string) (data : Obj X) (g : Gvas X)
    (raw : Raw X) :
  guard_lets_pass output_path force w →
  fs w !! filename = Some (File text) →
  may_read X filename = true →
  json_load X text = Some data →
  GvasFile_load X data = Some g →
  GvasFile_write X g = Some raw →
  ∃ ev,
    log (run (convert_json_to_sav X filename output_path force) w).2
    = log w ++ ev
    ∧ In (Compress (save_type_of (classify (save_game_class_name X g)))) ev.
Proof.
  intros Hpass Hf Hr Hd Hl Hs.
  change (convert_json_to_sav X filename output_path force)
    with (pipeline X TextToBinary filename output_path force false).
  rewrite pipeline_split.
  rewrite run_bind.
  destruct (guard_lets_pass_run output_path force
              (mkWorld (fs w) (stdin w)
                 (log w ++ banner TextToBinary filename output_path)) Hpass)
    as (rest & said & ->).
  cbv beta iota. cbn [fs stdin log]. unfold work.
  pose proof (json_to_sav_body_compress filename output_path
                (mkWorld (fs w) rest
                   ((log w ++ banner TextToBinary filename output_path)
                    ++ said))) as H.
  unfold post in H. destruct H as (ev2 & Hlog2 & _ & Hreach).
  exists (banner TextToBinary filename output_path ++ said ++ ev2).
  split; [rewrite Hlog2; cbn [log]; now rewrite <- !app_assoc|].
  apply in_or_app. right. apply in_or_app. right.
  now apply (Hreach text data g raw).
Qed.

(** C9. The discriminator [convert_json_to_sav] passes to the
    compressor. Whenever the compressor is called, it is on the
    re-serialized document rebuilt from the input text and with
    [0x32] when that document classifies as [WorldOrLocal], [0x31]
    when it classifies as [Standard], never another value; and it is the
    answer of the compressor at this discriminator that the run goes on
    with: its failure ends the run, its container is what is written.
    The call is made whenever the guard lets the run pass and the input
    reads, decodes, loads and re-serializes. *)
Theorem discriminator_by_variant (filename output_path : string)
    (force : bool) (w : World) (ev : list event) :
  log (run (convert_json_to_sav X filename output_path force) w).2
  = log w ++ ev →
  (∀ st, In (Compress st) ev →
     ∃ text data g raw,
       fs w !! filename = Some (File text)
       ∧ json_load X text = Some data
       ∧ GvasFile_load X data = Some g
       ∧ GvasFile_write X g = Some raw
       ∧ match classify (save_game_class_name X g) with
         | WorldOrLocal => st = 0x32%Z
         | Standard => st = 0x31%Z
         end
       ∧ (st = 0x31%Z ∨ st = 0x32%Z)
       ∧ match compress_gvas_to_sav X raw st with
         | None =>
             (run (convert_json_to_sav X filename output_path force) w).1
             = Raise (Delegated Compression)
             ∧ fs (run (convert_json_to_sav X filename output_path force) w).2
               = fs w
         | Some sav =>
             ((run (convert_json_to_sav X filename output_path force) w).1
              = Ok tt
              ∧ fs (run (convert_json_to_sav X filename output_path force)
                      w).2
                = <[output_path := File sav]> (fs w))
             ∨ ((run (convert_json_to_sav X filename output_path force) w).1
                = Raise (OSError output_path)
                ∧ fs (run (convert_json_to_sav X filename output_path force)
                        w).2
                  = fs w)
         end)
  ∧ (guard_lets_pass output_path force w →
     ∀ text data g raw,
       fs w !! filename = Some (File text) →
       may_read X filename = true →
       json_load X text = Some data →
       GvasFile_load X data = Some g →
       GvasFile_write X g = Some raw →
       In (Compress (match classify (save_game_class_name X g) with
                     | WorldOrLocal => 0x32%Z
                     | Standard => 0x31%Z
                     end)) ev).
Proof.
  intros Hlog. split.
  - intros st Hin.
    pose proof (convert_json_to_sav_only filename output_path force w) as H.
    unfold post in H. destruct H as (ev' & Hlog' & Honly).
    rewrite Hlog' in Hlog. apply app_inv_head in Hlog. subst ev'.
    destruct (Honly st Hin) as (text & data & g & raw & Hf & Hd & Hl & Hs
                                & -> & Hdec).
    exists text, data, g, raw. do 4 (split; [assumption|]).
    split; [destruct (classify (save_game_class_name X g)); reflexivity|].
    split; [destruct (classify (save_game_class_name X g)); simpl; auto|].
    exact Hdec.
  - intros Hpass text data g raw Hf Hr Hd Hl Hs.
    destruct (convert_json_to_sav_reached filename output_path force w
                text data g raw Hpass Hf Hr Hd Hl Hs) as (ev' & Hlog' & Hin).
    rewrite Hlog' in Hlog. apply app_inv_head in Hlog. subst ev'.
    exact Hin.
Qed.

Lemma convert_obj_to_sav_only (obj : Obj X) (output_path : string)
    (force : bool) (w : World) :
  post (convert_obj_to_sav X obj output_path force) w (λ oc w',
    ∃ ev, log w' = log w ++ ev
      ∧ ∀ st, In (Compress st) ev →
          ∃ g raw,
            GvasFile_load X obj = Some g
            ∧ GvasFile_write X g = Some raw
            ∧ st = save_type_of (classify (save_game_class_name X g))
            ∧ compressor_decides X raw st output_path w oc w').
Proof.
  eapply post_ext; [apply convert_obj_to_sav_split|].
  apply post_bind. eapply post_mono; [apply guard_post|]. cbn beta.
  intros oc w1 (Hfs & Hoc & ev1 & Hlog1 & Hev1 & _).
  assert (Hg : ∀ st, ¬ In (Compress st) ev1).
  { intros st Hst. apply guard_no_compress in Hev1.
    apply (none_of_In _ _ _ Hev1) in Hst. discriminate Hst. }
  destruct Hoc as [-> | [-> | ->]]; cbv beta iota;
    try (exists ev1; split; [exact Hlog1 | intros st Hin; now destruct (Hg st)]).
  eapply post_mono; [apply obj_to_sav_body_compress|]. cbn beta.
  intros oc w2 (ev2 & Hlog2 & Honly & _).
  exists (ev1 ++ ev2). split; [rewrite Hlog2, Hlog1; now rewrite <- app_assoc|].
  intros st [Hin | Hin]%in_app_or; [now destruct (Hg st)|].
  destruct (Honly st Hin) as (g & raw & Hl & Hs & Hst & Hdec).
  exists g, raw. unfold compressor_decides in *. rewrite Hfs in Hdec. auto 10.
Qed.

(** The same holds where [convert_obj_to_sav] computes the
    discriminator (lines 86-94): the compressor is called with the
    discriminator of the document loaded from the object, and its
    answer there decides the call; and it is called whenever the guard
    lets the call pass and the object loads and re-serializes. *)
Lemma convert_obj_to_sav_discriminator (obj : Obj X) (output_path : string)
    (force : bool) (w : World) (ev : list event) :
  log (run (convert_obj_to_sav X obj output_path force) w).2 = log w ++ ev →
  (∀ st, In (Compress st) ev →
     ∃ g raw,
       GvasFile_load X obj = Some g
       ∧ GvasFile_write X g = Some raw
       ∧ st = save_type_of (classify (save_game_class_name X g))
       ∧ (st = 0x31%Z ∨ st = 0x32%Z)
       ∧ compressor_decides X raw st output_path w
           (run (convert_obj_to_sav X obj output_path force) w).1
           (run (convert_obj_to_sav X obj output_path force) w).2)
  ∧ (guard_lets_pass output_path force w →
     ∀ g raw,
       GvasFile_load X obj = Some g →
       GvasFile_write X g = Some raw →
       In (Compress (save_type_of (classify (save_game_class_name X g)))) ev).
Proof.
  intros Hlog. split.
  - intros st Hin.
    pose proof (convert_obj_to_sav_only obj output_path force w) as H.
    unfold post in H. destruct H as (ev' & Hlog' & Honly).
    rewrite Hlog' in Hlog. apply app_inv_head in Hlog. subst ev'.
    destruct (Honly st Hin) as (g & raw & Hl & Hs & -> & Hdec).
    exists g, raw. do 3 (split; [assumption || reflexivity|]).
    split; [destruct (classify (save_game_class_name X g)); simpl; auto|].
    exact Hdec.
  - intros Hpass g raw Hl Hs.
    rewrite convert_obj_to_sav_split, run_bind in Hlog.
    destruct (guard_lets_pass_run output_path force w Hpass)
      as (rest & said & Hg).
    rewrite Hg in Hlog. cbv beta iota in Hlog.
    pose proof (obj_to_sav_body_compress obj output_path
                  (mkWorld (fs w) rest (log w ++ said))) as H.
    unfold post in H. destruct H as (ev2 & Hlog2 & _ & Hreach).
    rewrite Hlog2 in Hlog. cbn [log] in Hlog. rewrite <- app_assoc in Hlog.
    apply app_inv_head in Hlog. subst ev.
    apply in_or_app. right. now apply (Hreach g raw).
Qed.

End Guarded.

(** ** Runs of [main] *)

(** A step of [main]; the conversions are left to their contracts. *)
Ltac main_step :=
  lazymatch goal with
  | |- post (convert_sav_to_json _ _ _ _ _) _ _ => fail
  | |- post (convert_json_to_sav _ _ _ _) _ _ => fail
  | |- _ => post_step
  end.

(** A leaf where the run has ended in [exit(1)] although its exit code
    is taken to be 0. *)
Ltac absurd_exit :=
  lazymatch goal with
  | |- 1%Z = 0%Z → _ => let Hz := fresh in intros Hz; discriminate Hz
  | |- exit_code (Exit 1) = 0%Z → _ =>
      let Hz := fresh in intros Hz; discriminate Hz
  | |- exit_code (Raise _) = 0%Z → _ =>
      let Hz := fresh in intros Hz; discriminate Hz
  end.

(** The three ways a conversion can end, from its contract. *)
Ltac by_outcome H :=
  destruct H as [-> | [-> | [? ->]]]; cbv beta iota; try absurd_exit.

Section Main.

Context (X : Extern).

(** C4. With both [--to-json] and [--from-json] the run prints the
    usage message and ends in [exit(1)]; nothing else happens: no path
    is looked up, no file is opened, and the files and the standard
    input are as they were. *)
Theorem both_flags_usage_error (args : Args) (w : World) :
  to_json args = true → from_json args = true →
  run (main X args) w
  = (Exit 1,
     mkWorld (fs w) (stdin w)
       (log w ++ [Print "Cannot specify both --to-json and --from-json"]))
  ∧ exit_code (run (main X args) w).1 = 1%Z
  ∧ fs (run (main X args) w).2 = fs w.
Proof.
  intros Ht Hf.
  assert (H : run (main X args) w
              = (Exit 1,
                 mkWorld (fs w) (stdin w)
                   (log w ++
                    [Print "Cannot specify both --to-json and --from-json"])))
    by (unfold main; rewrite run_bind, Ht, Hf; reflexivity).
  rewrite H. repeat split.
Qed.

(** C10. When the Binary→Text conversion is not selected, the run does
    not depend on [--minify-json]: two runs that differ in that flag
    alone end in the same outcome, with the same files, byte for byte,
    and the same log. *)
Theorem minify_irrelevant (args : Args) (w : World) (minify : bool) :
  to_json args = false → endswith (filename args) ".sav" = false →
  run (main X (with_minify minify args)) w = run (main X args) w
  ∧ output_path_from_json (with_minify minify args)
    = output_path_from_json args.
Proof.
  intros Ht Hs. split; [|reflexivity].
  unfold main, with_minify. cbn [filename to_json from_json output force].
  rewrite Ht, Hs. cbn [orb]. reflexivity.
Qed.

(** C3, amended. A run that ends with exit code 0 either has written
    an output file in full, which then holds the data written, or had
    no direction flag and an input name ending neither in [".sav"] nor
    in [".json"], in which case it has done nothing at all. *)
Theorem exit_zero_written_or_unselected (args : Args) (w : World) :
  exit_code (run (main X args) w).1 = 0%Z →
  (∃ ev path data,
      log (run (main X args) w).2 = log w ++ ev
      ∧ In (Written path data) ev
      ∧ fs (run (main X args) w).2 !! path = Some (File data))
  ∨ (to_json args = false ∧ from_json args = false
     ∧ endswith (filename args) ".sav" = false
     ∧ endswith (filename args) ".json" = false
     ∧ (run (main X args) w).2 = w).
Proof.
  change (post (main X args) w (λ oc w',
    exit_code oc = 0%Z →
    (∃ ev path data,
        log w' = log w ++ ev ∧ In (Written path data) ev
        ∧ fs w' !! path = Some (File data))
    ∨ (to_json args = false ∧ from_json args = false
       ∧ endswith (filename args) ".sav" = false
       ∧ endswith (filename args) ".json" = false
       ∧ w' = w))).
  unfold main. repeat main_step; try absurd_exit.
  - (* the first conversion runs *)
    eapply post_mono; [apply convert_sav_to_json_post|].
    unfold pipeline_contract.
    intros oc w1 (Hoc & ev & Hlog & _ & _ & Hok & _).
    by_outcome Hoc.
    destruct (Hok eq_refl) as (d & Hd & Hfs).
    repeat main_step.
    + eapply post_mono; [apply convert_json_to_sav_post|].
      unfold pipeline_contract.
      intros oc w2 (Hoc2 & ev2 & Hlog2 & _ & _ & Hok2 & _).
      by_outcome Hoc2.
      destruct (Hok2 eq_refl) as (d2 & Hd2 & Hfs2). intros _. left.
      exists (Enter BinaryToText :: ev ++ Enter TextToBinary :: ev2),
        (output_path_from_json args), d2.
      split; [rewrite Hlog2, Hlog; now log_normal|].
      split; [right; apply in_or_app; right; now right|].
      rewrite Hfs2. apply lookup_insert_eq.
    + intros _. left.
      exists (Enter BinaryToText :: ev), (output_path_to_json args), d.
      split; [assumption|]. split; [now right|].
      rewrite Hfs. apply lookup_insert_eq.
  - (* only the second conversion runs *)
    eapply post_mono; [apply convert_json_to_sav_post|].
    unfold pipeline_contract.
    intros oc w2 (Hoc2 & ev2 & Hlog2 & _ & _ & Hok2 & _).
    by_outcome Hoc2.
    destruct (Hok2 eq_refl) as (d2 & Hd2 & Hfs2). intros _. left.
    exists (Enter TextToBinary :: ev2), (output_path_from_json args), d2.
    split; [assumption|]. split; [now right|].
    rewrite Hfs2. apply lookup_insert_eq.
  - (* no conversion is selected *)
    intros _. right. destruct w.
    repeat match goal with
           | H : _ || _ = false |- _ => apply orb_false_iff in H as [? ?]
           end.
    auto.
Qed.

Lemma resolve_selected (args : Args) :
  to_json args && from_json args = false →
  flag_agrees_with_suffix args →
  (to_json args || endswith (filename args) ".sav" = true →
     from_json args || endswith (filename args) ".json" = false
     ∧ resolve args = Some BinaryToText)
  ∧ (to_json args || endswith (filename args) ".sav" = false →
     from_json args || endswith (filename args) ".json" = true →
     resolve args = Some TextToBinary)
  ∧ (to_json args || endswith (filename args) ".sav" = false →
     from_json args || endswith (filename args) ".json" = false →
     resolve args = None).
Proof.
  unfold flag_agrees_with_suffix, resolve.
  pose proof (endswith_sav_json (filename args)) as Hsj.
  destruct (to_json args), (from_json args),
    (endswith (filename args) ".sav"),
    (endswith (filename args) ".json"); simpl;
    intros Hb [Ht Hf]; repeat split; intros; try discriminate;
    try (specialize (Ht eq_refl)); try (specialize (Hf eq_refl));
    try (specialize (Hsj eq_refl)); try discriminate; reflexivity.
Qed.

(** C1, amended. For a request that passes the checks and sets no flag
    against the suffix of its input name, [main] enters at most one
    conversion, the one the resolver names: the flagged one when a
    flag is set, else Binary→Text for a name ending in [".sav"],
    Text→Binary for a name ending in [".json"], and none when the
    resolver names none. *)
Theorem one_pipeline_when_flag_agrees (args : Args) (w : World) :
  passes_checks args w →
  flag_agrees_with_suffix args →
  ∃ ev,
    log (run (main X args) w).2 = log w ++ ev
    ∧ pipelines_run ev
      = match resolve args with Some p => [p] | None => [] end.
Proof.
  intros [Hflags [data Hfile]] Hagree.
  destruct (resolve_selected args Hflags Hagree) as (Hsel1 & Hsel2 & Hsel0).
  change (post (main X args) w (λ oc w',
    ∃ ev, log w' = log w ++ ev
          ∧ pipelines_run ev
            = match resolve args with Some p => [p] | None => [] end)).
  unfold main. repeat main_step;
    try (exfalso; rewrite ?Hfile in *; discriminate).
  - eapply post_mono; [apply convert_sav_to_json_post|].
    unfold pipeline_contract.
    intros oc w1 (Hoc & ev & Hlog & He & _).
    destruct (Hsel1 eq_refl) as [Hno ->].
    assert (Hev : pipelines_run (Enter BinaryToText :: ev) = [BinaryToText])
      by (simpl; now rewrite (pipelines_run_none ev)).
    by_outcome Hoc; [rewrite Hno; main_step | |]; eauto.
  - eapply post_mono; [apply convert_json_to_sav_post|].
    unfold pipeline_contract.
    intros oc w2 (_ & ev & Hlog & He & _).
    rewrite Hsel2 by reflexivity.
    exists (Enter TextToBinary :: ev). split; [assumption|].
    simpl. now rewrite (pipelines_run_none ev).
  - rewrite Hsel0 by reflexivity.
    exists []. split; [now rewrite app_nil_r | reflexivity].
Qed.

(** With [force] on, no run of [main] prompts or reads a reply. *)
Lemma forced_main_never_prompts (args : Args) (w : World) :
  force args = true →
  stdin (run (main X args) w).2 = stdin w
  ∧ ∃ ev, log (run (main X args) w).2 = log w ++ ev ∧ none_of is_prompt ev.
Proof.
  intros Hforce.
  change (post (main X args) w (λ oc w',
    stdin w' = stdin w
    ∧ ∃ ev, log w' = log w ++ ev ∧ none_of is_prompt ev)).
  unfold main. repeat main_step;
    try (split; [reflexivity|]; eexists;
         split; [try reflexivity; exact (eq_sym (List.app_nil_r _))
                | auto with events]).
  - eapply post_mono; [apply convert_sav_to_json_post|].
    unfold pipeline_contract.
    intros oc w1 (Hoc & ev & Hlog & _ & Hf & _).
    destruct (Hf Hforce) as [Hin Hp].
    assert (Hone : stdin w1 = stdin w
                   ∧ ∃ ev', log w1 = log w ++ ev' ∧ none_of is_prompt ev')
      by (split; [assumption|]; exists (Enter BinaryToText :: ev);
          auto with events).
    by_outcome Hoc; try exact Hone.
    repeat main_step; [|exact Hone].
    eapply post_mono; [apply convert_json_to_sav_post|].
    unfold pipeline_contract.
    intros oc w2 (_ & ev2 & Hlog2 & _ & Hf2 & _).
    destruct (Hf2 Hforce) as [Hin2 Hp2].
    split; [congruence|].
    exists (Enter BinaryToText :: ev ++ Enter TextToBinary :: ev2).
    split; [rewrite Hlog2, Hlog; now log_normal | auto 10 with events].
  - eapply post_mono; [apply convert_json_to_sav_post|].
    unfold pipeline_contract.
    intros oc w2 (_ & ev2 & Hlog2 & _ & Hf2 & _).
    destruct (Hf2 Hforce) as [Hin2 Hp2].
    split; [assumption|].
    exists (Enter TextToBinary :: ev2). auto with events.
Qed.

End Main.

(** ** The properties on sample runs *)

(** C1, as stated, fails: [--to-json] on a name ending in [".json"]
    enters both conversions, and a name with neither flag nor known
    suffix enters none. *)
Lemma both_pipelines_or_none :
  passes_checks (mkArgs "a.json" true false None false false)
    (Stub.world [("a.json", File Stub.world_sav)] [])
  ∧ resolve (mkArgs "a.json" true false None false false) = Some BinaryToText
  ∧ pipelines_run
      (log (run (main Stub.lib (mkArgs "a.json" true false None false false))
              (Stub.world [("a.json", File Stub.world_sav)] [])).2)
    = [BinaryToText; TextToBinary]
  ∧ passes_checks (mkArgs "notes.txt" false false None false false)
      (Stub.world [("notes.txt", File "hello")] [])
  ∧ ¬ ∃ p,
      pipelines_run
        (log (run (main Stub.lib
                     (mkArgs "notes.txt" false false None false false))
                (Stub.world [("notes.txt", File "hello")] [])).2)
      = [p].
Proof.
  split; [split; [reflexivity | eexists; reflexivity]|].
  split; [reflexivity|]. split; [reflexivity|].
  split; [split; [reflexivity | eexists; reflexivity]|].
  intros [p Hp]. vm_compute in Hp. discriminate Hp.
Qed.

Lemma one_pipeline_when_flag_agrees_witness :
  passes_checks (mkArgs "level.sav" false false None false false)
    (Stub.world [("level.sav", File Stub.world_sav)] [])
  ∧ flag_agrees_with_suffix (mkArgs "level.sav" false false None false false)
  ∧ ∃ ev,
      log (run (main Stub.lib
                  (mkArgs "level.sav" false false None false false))
             (Stub.world [("level.sav", File Stub.world_sav)] [])).2
      = [] ++ ev
      ∧ pipelines_run ev = [BinaryToText].
Proof.
  assert (H1 : passes_checks (mkArgs "level.sav" false false None false false)
                 (Stub.world [("level.sav", File Stub.world_sav)] []))
    by (split; [reflexivity | eexists; reflexivity]).
  assert (H2 : flag_agrees_with_suffix
                 (mkArgs "level.sav" false false None false false))
    by (split; intros H; discriminate H).
  split; [exact H1|]. split; [exact H2|].
  exact (one_pipeline_when_flag_agrees Stub.lib _ _ H1 H2).
Defined.

(** C3, as stated, fails: with neither flag nor known suffix the run
    ends with exit code 0 and has written nothing. *)
Lemma unselected_run_exits_zero :
  exit_code
    (run (main Stub.lib (mkArgs "notes.txt" false false None false false))
       (Stub.world [("notes.txt", File "hello")] [])).1 = 0%Z
  ∧ (run (main Stub.lib (mkArgs "notes.txt" false false None false false))
       (Stub.world [("notes.txt", File "hello")] [])).2
    = Stub.world [("notes.txt", File "hello")] []
  ∧ log (Stub.world [("notes.txt", File "hello")] []) = [].
Proof. repeat split. Qed.

Lemma exit_zero_written_or_unselected_witness :
  exit_code
    (run (main Stub.lib (mkArgs "level.sav.json" false false None true false))
       (Stub.both_files [])).1 = 0%Z
  ∧ ((∃ ev path data,
        log (run (main Stub.lib
                    (mkArgs "level.sav.json" false false None true false))
               (Stub.both_files [])).2 = [] ++ ev
        ∧ In (Written path data) ev
        ∧ fs (run (main Stub.lib
                     (mkArgs "level.sav.json" false false None true false))
                (Stub.both_files [])).2 !! path = Some (File data))
     ∨ (false = false ∧ false = false
        ∧ endswith "level.sav.json" ".sav" = false
        ∧ endswith "level.sav.json" ".json" = false
        ∧ (run (main Stub.lib
                  (mkArgs "level.sav.json" false false None true false))
             (Stub.both_files [])).2 = Stub.both_files [])).
Proof.
  assert (H : exit_code
                (run (main Stub.lib
                        (mkArgs "level.sav.json" false false None true false))
                   (Stub.both_files [])).1 = 0%Z) by reflexivity.
  split; [exact H|].
  exact (exit_zero_written_or_unselected Stub.lib _ _ H).
Defined.

Lemma both_flags_usage_error_witness :
  run (main Stub.lib (mkArgs "absent.sav" true true None false false))
    (Stub.world [] [])
  = (Exit 1,
     mkWorld ∅ [] [Print "Cannot specify both --to-json and --from-json"]).
Proof.
  exact (proj1 (both_flags_usage_error Stub.lib
                  (mkArgs "absent.sav" true true None false false)
                  (Stub.world [] []) eq_refl eq_refl)).
Defined.

Lemma overwrite_prompt_witness :
  run (pipeline Stub.lib TextToBinary "level.sav.json" "level.sav" false false)
    (Stub.both_files ["maybe"; "N"])
  = (Exit 1,
     behind_guard (Stub.both_files ["maybe"; "N"]) []
       (banner TextToBinary "level.sav.json" "level.sav")
       [Input overwrite_question; Input overwrite_question] "level.sav")
  ∧ run (pipeline Stub.lib BinaryToText "level.sav" "level.sav.json" false true)
      (Stub.both_files ["Y"; "unread"])
    = run (work Stub.lib BinaryToText "level.sav" "level.sav.json" true)
        (behind_guard (Stub.both_files ["Y"; "unread"]) ["unread"]
           (banner BinaryToText "level.sav" "level.sav.json")
           [Input overwrite_question] "level.sav.json").
Proof.
  split.
  - refine (proj1 (overwrite_prompt Stub.lib TextToBinary "level.sav.json"
                     "level.sav" false (Stub.both_files ["maybe"; "N"])
                     ["maybe"] "N" [] _ eq_refl _ _) eq_refl).
    + eexists; reflexivity.
    + repeat constructor; discriminate.
    + right; reflexivity.
  - refine (proj2 (overwrite_prompt Stub.lib BinaryToText "level.sav"
                     "level.sav.json" true (Stub.both_files ["Y"; "unread"])
                     [] "Y" ["unread"] _ eq_refl _ _) eq_refl).
    + eexists; reflexivity.
    + constructor.
    + left; reflexivity.
Defined.

Lemma forced_overwrite_witness :
  is_Some (fs (Stub.both_files []) !! "level.sav")
  ∧ run (pipeline Stub.lib TextToBinary "level.sav.json" "level.sav" true
           false) (Stub.both_files [])
    = run (work Stub.lib TextToBinary "level.sav.json" "level.sav" false)
        (behind_guard (Stub.both_files []) []
           (banner TextToBinary "level.sav.json" "level.sav") [] "level.sav").
Proof.
  assert (H : is_Some (fs (Stub.both_files []) !! "level.sav"))
    by (eexists; reflexivity).
  split; [exact H|].
  exact (proj1 (forced_overwrite Stub.lib TextToBinary "level.sav.json"
                  "level.sav" false (Stub.both_files []) H)).
Defined.

Lemma delegated_failure_no_write_witness :
  before_write BinaryToText Decompress = true
  ∧ (run (pipeline Stub.lib BinaryToText "broken.sav" "out.json" false false)
       Stub.broken).1
    = Raise (Delegated Decompress)
  ∧ fs (run (pipeline Stub.lib BinaryToText "broken.sav" "out.json" false
               false) Stub.broken).2
    = fs Stub.broken.
Proof.
  split; [reflexivity|]. split; [reflexivity|].
  exact (proj1 (delegated_failure_no_write Stub.lib BinaryToText "broken.sav"
                  "out.json" false false Stub.broken Decompress
                  eq_refl eq_refl)).
Defined.

Lemma discriminator_by_variant_witness :
  In (Compress 0x32)
    (log (run (convert_json_to_sav Stub.lib "level.sav.json" "level.sav" true)
            (Stub.both_files [])).2)
  ∧ fs (run (convert_json_to_sav Stub.lib "level.sav.json" "level.sav" true)
          (Stub.both_files [])).2
    = <[ "level.sav" := File Stub.world_sav ]> (fs (Stub.both_files [])).
Proof.
  pose proof (discriminator_by_variant Stub.lib "level.sav.json" "level.sav"
                true (Stub.both_files []) _ eq_refl) as [Honly Hreach].
  assert (H : In (Compress 0x32)
                (log (run (convert_json_to_sav Stub.lib "level.sav.json"
                             "level.sav" true) (Stub.both_files [])).2))
    by exact (Hreach (or_intror (or_introl eq_refl)) Stub.world_json
                "GVAS/Script/Pal.PalWorldSaveGame"
                "GVAS/Script/Pal.PalWorldSaveGame"
                "GVAS/Script/Pal.PalWorldSaveGame"
                eq_refl eq_refl eq_refl eq_refl eq_refl).
  split; [exact H|].
  destruct (Honly 0x32%Z H)
    as (text & data & g & raw & Hf & Hd & Hl & Hs & _ & _ & Hdec).
  vm_compute in Hf. injection Hf as <-.
  vm_compute in Hd. injection Hd as <-.
  vm_compute in Hl. injection Hl as <-.
  vm_compute in Hs. injection Hs as <-.
  destruct Hdec as [[_ Hfs] | [Hoc _]]; [exact Hfs | discriminate Hoc].
Defined.

Lemma minify_irrelevant_witness :
  run (main Stub.lib (mkArgs "level.sav.json" false false None true true))
    (Stub.both_files [])
  = run (main Stub.lib (mkArgs "level.sav.json" false false None true false))
      (Stub.both_files []).
Proof.
  exact (proj1 (minify_irrelevant Stub.lib
                  (mkArgs "level.sav.json" false false None true false)
                  (Stub.both_files []) true eq_refl eq_refl)).
Defined.

(** C6. The failure policy does not hold for [dump], the fourth step
    on the way to text: [convert_sav_to_json] has opened its output by
    then. On [odd.sav -o out.json --force], with a save that
    decompresses and parses and a document on which [dump] fails, the
    run ends in the exception of [dump] with exit status 1, and
    [out.json], which held ["kept"], is left empty. *)
Theorem dump_failure_empties_output :
  fs (Stub.world [("odd.sav", File "PlZ1GVAS?"); ("out.json", File "kept")] [])
  !! "out.json"
  = Some (File "kept")
  ∧ (run (main Stub.lib
            (mkArgs "odd.sav" false false (Some "out.json") true false))
       (Stub.world [("odd.sav", File "PlZ1GVAS?"); ("out.json", File "kept")]
          [])).1
    = Raise (Delegated Dump)
  ∧ exit_code
      (run (main Stub.lib
              (mkArgs "odd.sav" false false (Some "out.json") true false))
         (Stub.world [("odd.sav", File "PlZ1GVAS?");
                      ("out.json", File "kept")] [])).1
    = 1%Z
  ∧ fs (run (main Stub.lib
               (mkArgs "odd.sav" false false (Some "out.json") true false))
          (Stub.world [("odd.sav", File "PlZ1GVAS?");
                       ("out.json", File "kept")] [])).2
    !! "out.json"
    = Some (File "").
Proof. repeat split; reflexivity. Qed.

(** * Further properties of the script *)

(** ** The replies [confirm_prompt] accepts *)

Lemma casefold_ascii_y (c : ascii) :
  casefold_ascii c = "y"%char ↔ c = "y"%char ∨ c = "Y"%char.
Proof.
  destruct c as [[] [] [] [] [] [] [] []]; vm_compute;
    (split; [intros H; first [discriminate H | auto]
            | intros [H | H]; first [discriminate H | reflexivity]]).
Qed.

Lemma casefold_ascii_n (c : ascii) :
  casefold_ascii c = "n"%char ↔ c = "n"%char ∨ c = "N"%char.
Proof.
  destruct c as [[] [] [] [] [] [] [] []]; vm_compute;
    (split; [intros H; first [discriminate H | auto]
            | intros [H | H]; first [discriminate H | reflexivity]]).
Qed.

Lemma casefold_y (r : string) : casefold r = "y" ↔ r = "y" ∨ r = "Y".
Proof.
  destruct r as [|c [|d r]]; simpl.
  - split; [discriminate | intros [H | H]; discriminate H].
  - split.
    + intros H. injection H as H. apply casefold_ascii_y in H as [-> | ->]; auto.
    + intros [H | H]; injection H as ->; reflexivity.
  - split; [discriminate | intros [H | H]; discriminate H].
Qed.

Lemma casefold_n (r : string) : casefold r = "n" ↔ r = "n" ∨ r = "N".
Proof.
  destruct r as [|c [|d r]]; simpl.
  - split; [discriminate | intros [H | H]; discriminate H].
  - split.
    + intros H. injection H as H. apply casefold_ascii_n in H as [-> | ->]; auto.
    + intros [H | H]; injection H as ->; reflexivity.
  - split; [discriminate | intros [H | H]; discriminate H].
Qed.

(** X1. One turn of the loop of [confirm_prompt]: the replies ["y"] and
    ["Y"] end it with [True], ["n"] and ["N"] end it with [False], each
    after one prompt and one reply read; any other reply, [""], ["yes"]
    or [" y"] among them, is dropped and the question is asked again. *)
Theorem confirm_prompt_turn (question : string) (w : World) (r : string)
    (rest : list string) :
  stdin w = r :: rest →
  run (confirm_prompt question) w
  = if bool_decide (r = "y" ∨ r = "Y") then
      (Ok true,
       mkWorld (fs w) rest (log w ++ [Input (question +:+ " (y/n): ")]))
    else if bool_decide (r = "n" ∨ r = "N") then
      (Ok false,
       mkWorld (fs w) rest (log w ++ [Input (question +:+ " (y/n): ")]))
    else
      run (confirm_prompt question)
        (mkWorld (fs w) rest (log w ++ [Input (question +:+ " (y/n): ")])).
Proof.
  intros Hin. unfold confirm_prompt. cbn [run fs stdin log]. rewrite Hin.
  cbn [confirm_loop]. unfold is_y_or_n.
  destruct (bool_decide_reflect (r = "y" ∨ r = "Y")) as [Hy | Hy].
  - apply casefold_y in Hy. rewrite Hy. reflexivity.
  - destruct (bool_decide_reflect (r = "n" ∨ r = "N")) as [Hn | Hn].
    + apply casefold_n in Hn. rewrite Hn. reflexivity.
    + rewrite <- casefold_y in Hy. rewrite <- casefold_n in Hn.
      apply String.eqb_neq in Hy, Hn. rewrite Hy, Hn. reflexivity.
Qed.

Lemma confirm_prompt_turn_witness :
  run (confirm_prompt "Sure?") (Stub.both_files ["N"; "left"])
  = (Ok false,
     mkWorld (fs (Stub.both_files [])) ["left"] [Input "Sure? (y/n): "]).
Proof.
  exact (confirm_prompt_turn "Sure?" (Stub.both_files ["N"; "left"])
           "N" ["left"] eq_refl).
Defined.

(** ** The guard in its other cases *)

Lemma confirm_loop_dry (prompt : string) (replies : list string)
    (lg : list event) :
  Forall (λ s, is_y_or_n (casefold s) = false) replies →
  confirm_loop prompt replies lg
  = (Raise EOFError, [],
     lg ++ replicate (S (length replies)) (Input prompt)).
Proof.
  intros H. revert lg. induction H as [|s replies Hs _ IH]; intros lg.
  - reflexivity.
  - cbn [confirm_loop]. rewrite Hs, IH. now rewrite <- app_assoc.
Qed.

Section Guard.

Context (X : Extern).

(** X2. When the output path exists, [force] is off and no reply on
    standard input casefolds to ["y"] or ["n"], either conversion asks
    once per reply and once more, then ends in an uncaught [EOFError]:
    exit status 1, every file as it was, nothing opened. *)
Theorem prompt_runs_dry (p : Pipeline) (filename output_path : string)
    (minify : bool) (w : World) :
  is_Some (fs w !! output_path) →
  Forall (λ s, casefold s ≠ "y" ∧ casefold s ≠ "n") (stdin w) →
  run (pipeline X p filename output_path false minify) w
  = (Raise EOFError,
     behind_guard w [] (banner p filename output_path)
       (replicate (S (length (stdin w))) (Input overwrite_question))
       output_path)
  ∧ exit_code (run (pipeline X p filename output_path false minify) w).1
    = 1%Z.
Proof.
  intros [n Hex] Hbad.
  assert (Hbad' : Forall (λ s, is_y_or_n (casefold s) = false) (stdin w))
    by (eapply Forall_impl; [exact Hbad|];
        intros s Hs; now apply is_y_or_n_false).
  assert (Hrun : run (pipeline X p filename output_path false minify) w
                 = (Raise EOFError,
                    behind_guard w [] (banner p filename output_path)
                      (replicate (S (length (stdin w)))
                         (Input overwrite_question))
                      output_path)).
  { rewrite pipeline_split, run_bind. unfold overwrite_guard.
    rewrite run_bind. cbn [run path_exists fs stdin log]. rewrite Hex.
    rewrite run_bind. cbn [run print emit fs stdin log negb].
    rewrite run_bind. cbn [run confirm_prompt fs stdin log].
    rewrite (confirm_loop_dry _ _ _ Hbad'). unfold behind_guard.
    rewrite <- !app_assoc. reflexivity. }
  rewrite Hrun. split; reflexivity.
Qed.

(** X3. When nothing is at the output path, either conversion goes
    straight from its banner to its work, whatever [force] is: no
    warning is printed, no prompt is issued and no reply is read. *)
Theorem absent_output_no_guard (p : Pipeline) (filename output_path : string)
    (force minify : bool) (w : World) :
  fs w !! output_path = None →
  run (pipeline X p filename output_path force minify) w
  = run (work X p filename output_path minify)
      (mkWorld (fs w) (stdin w) (log w ++ banner p filename output_path)).
Proof.
  intros Hno. rewrite pipeline_split, run_bind.
  rewrite (guard_absent output_path force
             (mkWorld (fs w) (stdin w)
                (log w ++ banner p filename output_path)) Hno).
  reflexivity.
Qed.


End Guard.

Lemma prompt_runs_dry_witness :
  run (pipeline Stub.lib TextToBinary "level.sav.json" "level.sav" false false)
    (Stub.both_files ["yes"; "no"])
  = (Raise EOFError,
     behind_guard (Stub.both_files ["yes"; "no"]) []
       (banner TextToBinary "level.sav.json" "level.sav")
       (replicate 3 (Input overwrite_question)) "level.sav").
Proof.
  refine (proj1 (prompt_runs_dry Stub.lib TextToBinary "level.sav.json"
                   "level.sav" false (Stub.both_files ["yes"; "no"]) _ _)).
  - eexists; reflexivity.
  - repeat constructor; discriminate.
Defined.

Lemma absent_output_no_guard_witness :
  run (pipeline Stub.lib BinaryToText "level.sav" "fresh.json" false false)
    (Stub.both_files ["unread"])
  = run (work Stub.lib BinaryToText "level.sav" "fresh.json" false)
      (mkWorld (fs (Stub.both_files [])) ["unread"]
         (banner BinaryToText "level.sav" "fresh.json")).
Proof.
  exact (absent_output_no_guard Stub.lib BinaryToText "level.sav" "fresh.json"
           false false (Stub.both_files ["unread"]) eq_refl).
Defined.


(** ** What a run may touch *)

Lemma within_guard (reads writes : list string) (ev : list event) :
  none_of beyond_terminal ev → Forall (within reads writes) ev.
Proof.
  intros H. eapply Forall_impl; [exact H|].
  intros [] He; try discriminate He; exact I.
Qed.

Lemma within_weaken (reads writes writes' : list string) (ev : list event) :
  (∀ p, In p writes → In p writes') →
  Forall (within reads writes) ev → Forall (within reads writes') ev.
Proof.
  intros Hw H. eapply Forall_impl; [exact H|].
  intros [] He; simpl in *; auto.
Qed.

Lemma none_of_app_inv (kind : event → bool) (ev1 ev2 : list event) :
  none_of kind (ev1 ++ ev2) → none_of kind ev1 ∧ none_of kind ev2.
Proof. intros H. now apply Forall_app in H. Qed.

(** The files at a leaf of a run: untouched, unless an event of the
    leaf opens [output_path] for writing. *)
Ltac frame_fs output_path Hn :=
  lazymatch goal with
  | |- ?m = ?m => reflexivity
  | |- _ =>
      exfalso;
      apply (none_of_In _ _ (OpenWrite output_path)) in Hn;
      [discriminate Hn | simpl; auto 10]
  end.

Section Frame.

Context (X : Extern).

Lemma sav_to_json_body_frame (filename output_path : string) (minify : bool)
    (w : World) :
  post (sav_to_json_body X filename output_path minify) w (frame_contract filename output_path w).
Proof.
  unfold sav_to_json_body, frame_contract.
  repeat post_step; simpl; log_normal; (eexists; split; [reflexivity|]);
    (split;
     [repeat first [apply List.Forall_nil
                   | apply List.Forall_cons; [simpl; auto|]]
     |intros Hn; frame_fs output_path Hn]).
Qed.

Lemma json_to_sav_body_frame (filename output_path : string) (w : World) :
  post (json_to_sav_body X filename output_path) w (frame_contract filename output_path w).
Proof.
  unfold json_to_sav_body, obj_to_sav_body. unfold frame_contract.
  repeat post_step; simpl; log_normal; (eexists; split; [reflexivity|]);
    (split;
     [repeat first [apply List.Forall_nil
                   | apply List.Forall_cons; [simpl; auto|]]
     |intros Hn; frame_fs output_path Hn]).
Qed.

(** Either conversion reads at most its input and opens at most its
    output for writing, and changes no file when it opens nothing for
    writing. *)
Lemma pipeline_frame (p : Pipeline) (filename output_path : string)
    (force minify : bool) (w : World) :
  post (pipeline X p filename output_path force minify) w (frame_contract filename output_path w).
Proof.
  unfold frame_contract.
  eapply post_ext; [apply pipeline_split|].
  apply post_bind. eapply post_mono; [apply guard_post|]. cbn beta.
  intros oc w1 (Hfs & Hoc & ev & Hlog & Hev & _).
  cbn [fs log] in Hfs, Hlog.
  assert (Hb : Forall (within [filename] [output_path])
                 (banner p filename output_path))
    by (repeat constructor).
  assert (Hquiet : ∃ ev', log w1 = log w ++ ev'
                     ∧ Forall (within [filename] [output_path]) ev'
                     ∧ (none_of is_write ev' → fs w1 = fs w)).
  { exists (banner p filename output_path ++ ev).
    split; [rewrite Hlog; now rewrite <- app_assoc|].
    split; [|intros _; exact Hfs].
    apply Forall_app. split; [exact Hb | now apply within_guard]. }
  destruct Hoc as [-> | [-> | ->]]; cbv beta iota; try exact Hquiet.
  assert (Hwork : post (work X p filename output_path minify) w1
                    (frame_contract filename output_path w1))
    by (destruct p; [apply sav_to_json_body_frame
                    | apply json_to_sav_body_frame]).
  eapply post_mono; [exact Hwork|]. unfold frame_contract.
  intros oc w2 (ev2 & Hlog2 & Hev2 & Hfs2).
  exists (banner p filename output_path ++ ev ++ ev2).
  split; [rewrite Hlog2, Hlog; now rewrite <- !app_assoc|].
  split.
  - apply Forall_app. split; [exact Hb|].
    apply Forall_app. split; [now apply within_guard | exact Hev2].
  - intros Hn. apply none_of_app_inv in Hn as [_ Hn].
    apply none_of_app_inv in Hn as [_ Hn].
    rewrite (Hfs2 Hn). exact Hfs.
Qed.

Lemma convert_sav_to_json_frame (filename output_path : string)
    (force minify : bool) (w : World) :
  post (convert_sav_to_json X filename output_path force minify) w
    (frame_contract filename output_path w).
Proof.
  exact (pipeline_frame BinaryToText filename output_path force minify w).
Qed.

Lemma convert_json_to_sav_frame (filename output_path : string)
    (force : bool) (w : World) :
  post (convert_json_to_sav X filename output_path force) w
    (frame_contract filename output_path w).
Proof.
  exact (pipeline_frame TextToBinary filename output_path force false w).
Qed.

(** X5. A run of [main] calls [open] for reading on nothing but its
    input name and for writing on nothing but the two output paths it
    derives, each spelled as derived; and a run that opens nothing for
    writing leaves every file as it was. *)
Theorem main_touches_outputs_only (args : Args) (w : World) :
  ∃ ev,
    log (run (main X args) w).2 = log w ++ ev
    ∧ Forall (within [filename args]
                [output_path_to_json args; output_path_from_json args]) ev
    ∧ (none_of is_write ev → fs (run (main X args) w).2 = fs w).
Proof.
  change (post (main X args) w (λ oc w',
    ∃ ev, log w' = log w ++ ev
      ∧ Forall (within [filename args]
                  [output_path_to_json args; output_path_from_json args]) ev
      ∧ (none_of is_write ev → fs w' = fs w))).
  unfold main. repeat main_step;
    try (eexists; split;
         [try reflexivity; exact (eq_sym (List.app_nil_r _))
         |split; [repeat constructor | intros _; reflexivity]]).
  - eapply post_mono; [apply convert_sav_to_json_frame|].
    unfold frame_contract. intros oc w1 (ev1 & Hlog1 & Hev1 & Hfs1).
    apply (within_weaken _ _
             [output_path_to_json args; output_path_from_json args])
      in Hev1; [|simpl; tauto].
    assert (Hone : ∃ ev, log w1 = log w ++ ev
                     ∧ Forall (within [filename args]
                                 [output_path_to_json args;
                                  output_path_from_json args]) ev
                     ∧ (none_of is_write ev → fs w1 = fs w))
      by eauto.
    destruct oc as [[]|c|e]; try exact Hone.
    repeat main_step; [|exact Hone].
    eapply post_mono; [apply convert_json_to_sav_frame|].
    unfold frame_contract. intros oc w2 (ev2 & Hlog2 & Hev2 & Hfs2).
    apply (within_weaken _ _
             [output_path_to_json args; output_path_from_json args])
      in Hev2; [|simpl; tauto].
    exists (ev1 ++ ev2).
    split; [rewrite Hlog2, Hlog1; now rewrite <- app_assoc|].
    split; [apply Forall_app; now split|].
    intros Hn. apply none_of_app_inv in Hn as [Hn1 Hn2].
    rewrite (Hfs2 Hn2). exact (Hfs1 Hn1).
  - eapply post_mono; [apply convert_json_to_sav_frame|].
    unfold frame_contract. intros oc w2 (ev2 & Hlog2 & Hev2 & Hfs2).
    apply (within_weaken _ _
             [output_path_to_json args; output_path_from_json args])
      in Hev2; [|simpl; tauto].
    eauto.
Qed.

End Frame.

(** ** The checks and the ends of [main] *)

Lemma pipelines_run_app (l1 l2 : list event) :
  pipelines_run (l1 ++ l2) = pipelines_run l1 ++ pipelines_run l2.
Proof. apply omap_app. Qed.

Section Ends.

Context (X : Extern).

(** X6. With at most one direction flag: when nothing is at the input
    path the run prints that the name does not exist, and when a
    directory is there it prints that the name is not a file; either way
    it ends in [exit(1)] before any conversion starts, with the files
    and the standard input as they were. *)
Theorem input_checks (args : Args) (w : World) :
  to_json args && from_json args = false →
  fs w !! filename args = None ∨ fs w !! filename args = Some Dir →
  run (main X args) w
  = (Exit 1,
     mkWorld (fs w) (stdin w)
       (log w ++
        [Print (filename args +:+
                match fs w !! filename args with
                | None => " does not exist"
                | Some _ => " is not a file"
                end)])).
Proof.
  intros Hflags Hin. unfold main. rewrite run_bind, Hflags.
  cbn [run ret]. rewrite run_bind. cbn [run path_exists].
  destruct Hin as [Hin | Hin]; rewrite Hin; cbn [negb].
  - reflexivity.
  - rewrite run_bind. cbn [run ret]. rewrite run_bind.
    cbn [run path_isfile]. rewrite Hin. reflexivity.
Qed.

(** X7. Once the arguments are parsed, the exit status of a run of
    [main] is 0 or 1, whatever the request, the files, the replies and
    the collaborators: the script has no other [exit] code, and an
    uncaught exception ends the interpreter with 1. *)
Theorem exit_code_zero_or_one (args : Args) (w : World) :
  exit_code (run (main X args) w).1 = 0%Z
  ∨ exit_code (run (main X args) w).1 = 1%Z.
Proof.
  change (post (main X args) w (λ oc w',
    exit_code oc = 0%Z ∨ exit_code oc = 1%Z)).
  unfold main. repeat main_step; auto.
  - eapply post_mono; [apply convert_sav_to_json_post|].
    unfold pipeline_contract. intros oc w1 (Hoc & _).
    destruct Hoc as [-> | [-> | [e ->]]]; cbv beta iota; auto.
    repeat main_step; auto.
    eapply post_mono; [apply convert_json_to_sav_post|].
    unfold pipeline_contract. intros oc w2 (Hoc & _).
    destruct Hoc as [-> | [-> | [e ->]]]; auto.
  - eapply post_mono; [apply convert_json_to_sav_post|].
    unfold pipeline_contract. intros oc w2 (Hoc & _).
    destruct Hoc as [-> | [-> | [e ->]]]; auto.
Qed.

End Ends.

Lemma input_checks_witness :
  run (main Stub.lib (mkArgs "levels" false true None false false))
    (Stub.world [("levels", Dir)] [])
  = (Exit 1, mkWorld {[ "levels" := Dir ]} [] [Print "levels is not a file"]).
Proof.
  exact (input_checks Stub.lib (mkArgs "levels" false true None false false)
           (Stub.world [("levels", Dir)] []) eq_refl
           (or_intror eq_refl)).
Defined.

(** ** Conversions that succeed *)

Section Success.

Context (X : Extern).

Lemma sav_to_json_body_ok (filename output_path : string) (minify : bool)
    (w : World) (data : string) (raw : Raw X) (z : Z) (g : Gvas X)
    (obj : Obj X) (text : string) :
  fs w !! filename = Some (File data) →
  may_read X filename = true →
  decompress_sav_to_gvas X data = Some (raw, z) →
  GvasFile_read X raw = Some g →
  GvasFile_dump X g = Some obj →
  json_dump X obj (if minify then None else Some "	") = (text, true) →
  fs w !! output_path ≠ Some Dir →
  may_write X output_path = true →
  run (sav_to_json_body X filename output_path minify) w
  = (Ok tt,
     mkWorld (<[output_path := File text]> (fs w)) (stdin w)
       (log w ++
        [Print "Decompressing sav file"; OpenRead filename;
         Print "Loading GVAS file";
         Print ("Writing JSON to " +:+ output_path);
         OpenWrite output_path; Written output_path text])).
Proof.
  intros Hf Hr Hd Hp Hdump Hjson Ho Hw.
  unfold sav_to_json_body, bind, print, emit, read_file, delegate,
    open_write, store, ret, raise.
  cbn [run fs stdin log]. rewrite Hf, Hr. cbn [run fs stdin log].
  rewrite Hd. cbn [run fs stdin log]. rewrite Hp. cbn [run fs stdin log].
  rewrite Hw.
  assert (Hopen : match fs w !! output_path with
                  | Some Dir => false
                  | _ => true
                  end = true)
    by (destruct (fs w !! output_path) as [[]|]; congruence).
  destruct (fs w !! output_path) as [[old|]|]; try discriminate Hopen;
    cbn [run fs stdin log]; rewrite Hdump; cbn [run fs stdin log];
    rewrite Hjson; cbn [run fs stdin log];
    rewrite insert_insert_eq, <- !app_assoc; reflexivity.
Qed.

Lemma json_to_sav_body_ok (filename output_path : string) (w : World)
    (text : string) (data : Obj X) (g : Gvas X) (raw : Raw X) (sav : string) :
  fs w !! filename = Some (File text) →
  may_read X filename = true →
  json_load X text = Some data →
  GvasFile_load X data = Some g →
  GvasFile_write X g = Some raw →
  compress_gvas_to_sav X raw
    (save_type_of (classify (save_game_class_name X g))) = Some sav →
  fs w !! output_path ≠ Some Dir →
  may_write X output_path = true →
  run (json_to_sav_body X filename output_path) w
  = (Ok tt,
     mkWorld (<[output_path := File sav]> (fs w)) (stdin w)
       (log w ++
        [Print ("Loading JSON from " +:+ filename); OpenRead filename;
         Print "Compressing SAV file";
         Compress (save_type_of (classify (save_game_class_name X g)));
         Print ("Writing SAV file to " +:+ output_path);
         OpenWrite output_path; Written output_path sav])).
Proof.
  intros Hf Hr Hd Hl Hs Hc Ho Hw.
  unfold json_to_sav_body, obj_to_sav_body, bind, print, emit, read_file,
    delegate, open_write, store, ret, raise.
  cbn [run fs stdin log]. rewrite Hf, Hr. cbn [run fs stdin log].
  rewrite Hd. cbn [run fs stdin log]. rewrite Hl. cbn [run fs stdin log].
  rewrite Hs. cbn [run fs stdin log]. rewrite Hc. cbn [run fs stdin log].
  rewrite Hw.
  assert (Hopen : match fs w !! output_path with
                  | Some Dir => false
                  | _ => true
                  end = true)
    by (destruct (fs w !! output_path) as [[]|]; congruence).
  destruct (fs w !! output_path) as [[old|]|]; try discriminate Hopen;
    cbn [run fs stdin log];
    rewrite insert_insert_eq, <- !app_assoc; reflexivity.
Qed.

(** The checks of [main] pass without a trace when a file is at the
    input path and at most one flag is set. *)
Lemma main_after_checks (args : Args) (w : World) (data : string) :
  to_json args && from_json args = false →
  fs w !! filename args = Some (File data) →
  run (main X args) w
  = run ((if to_json args || endswith (filename args) ".sav" then
            convert_sav_to_json X (filename args) (output_path_to_json args)
              (force args) (minify_json args)
          else ret tt) ;;
         (if from_json args || endswith (filename args) ".json" then
            convert_json_to_sav X (filename args) (output_path_from_json args)
              (force args)
          else ret tt)) w.
Proof.
  intros Hflags Hfile. unfold main. rewrite run_bind, Hflags. cbn [run ret].
  rewrite run_bind. cbn [run path_exists]. rewrite Hfile. cbn [negb].
  rewrite run_bind. cbn [run ret]. rewrite run_bind.
  cbn [run path_isfile]. rewrite Hfile. cbn [negb].
  rewrite run_bind. cbn [run ret]. reflexivity.
Qed.

Lemma main_runs_first (args : Args) (w w' : World) (data : string) :
  to_json args || endswith (filename args) ".sav" = true →
  from_json args || endswith (filename args) ".json" = false →
  fs w !! filename args = Some (File data) →
  run (convert_sav_to_json X (filename args) (output_path_to_json args)
         (force args) (minify_json args)) w = (Ok tt, w') →
  run (main X args) w = (Ok tt, w').
Proof.
  intros Hsel1 Hsel2 Hf Hrun.
  assert (Hflags : to_json args && from_json args = false)
    by (apply orb_false_iff in Hsel2 as [-> _]; apply andb_false_r).
  rewrite (main_after_checks args w data Hflags Hf).
  rewrite run_bind, Hsel1, Hsel2, Hrun. reflexivity.
Qed.

Lemma main_runs_second (args : Args) (w : World) (data : string) :
  to_json args || endswith (filename args) ".sav" = false →
  from_json args || endswith (filename args) ".json" = true →
  fs w !! filename args = Some (File data) →
  run (main X args) w
  = run (convert_json_to_sav X (filename args) (output_path_from_json args)
           (force args)) w.
Proof.
  intros Hsel1 Hsel2 Hf.
  assert (Hflags : to_json args && from_json args = false)
    by (apply orb_false_iff in Hsel1 as [-> _]; reflexivity).
  rewrite (main_after_checks args w data Hflags Hf).
  rewrite run_bind, Hsel1, Hsel2. reflexivity.
Qed.

Lemma convert_sav_to_json_fresh (filename output_path : string)
    (force minify : bool) (w : World) (data : string) (raw : Raw X) (z : Z)
    (g : Gvas X) (obj : Obj X) (text : string) :
  fs w !! filename = Some (File data) →
  may_read X filename = true →
  decompress_sav_to_gvas X data = Some (raw, z) →
  GvasFile_read X raw = Some g →
  GvasFile_dump X g = Some obj →
  json_dump X obj (if minify then None else Some "	") = (text, true) →
  fs w !! output_path = None →
  may_write X output_path = true →
  run (convert_sav_to_json X filename output_path force minify) w
  = (Ok tt,
     mkWorld (<[output_path := File text]> (fs w)) (stdin w)
       (log w
        ++ banner BinaryToText filename output_path
        ++ [Print "Decompressing sav file"; OpenRead filename;
            Print "Loading GVAS file";
            Print ("Writing JSON to " +:+ output_path);
            OpenWrite output_path; Written output_path text])).
Proof.
  intros Hf Hr Hd Hp Hdump Hjson Hno Hw.
  change (convert_sav_to_json X filename output_path force minify)
    with (pipeline X BinaryToText filename output_path force minify).
  rewrite pipeline_split, run_bind.
  rewrite (guard_absent output_path force
             (mkWorld (fs w) (stdin w)
                (log w ++ banner BinaryToText filename output_path)) Hno).
  unfold work.
  rewrite (sav_to_json_body_ok _ _ _ _ data raw z g obj text);
    try assumption; cbn [fs]; try congruence.
  cbn [fs stdin log]. now rewrite <- app_assoc.
Qed.

Lemma convert_json_to_sav_fresh (filename output_path : string)
    (force : bool) (w : World) (text : string) (data : Obj X) (g : Gvas X)
    (raw : Raw X) (sav : string) :
  fs w !! filename = Some (File text) →
  may_read X filename = true →
  json_load X text = Some data →
  GvasFile_load X data = Some g →
  GvasFile_write X g = Some raw →
  compress_gvas_to_sav X raw
    (save_type_of (classify (save_game_class_name X g))) = Some sav →
  fs w !! output_path = None →
  may_write X output_path = true →
  run (convert_json_to_sav X filename output_path force) w
  = (Ok tt,
     mkWorld (<[output_path := File sav]> (fs w)) (stdin w)
       (log w
        ++ banner TextToBinary filename output_path
        ++ [Print ("Loading JSON from " +:+ filename); OpenRead filename;
            Print "Compressing SAV file";
            Compress (save_type_of (classify (save_game_class_name X g)));
            Print ("Writing SAV file to " +:+ output_path);
            OpenWrite output_path; Written output_path sav])).
Proof.
  intros Hf Hr Hd Hl Hs Hc Hno Hw.
  change (convert_json_to_sav X filename output_path force)
    with (pipeline X TextToBinary filename output_path force false).
  rewrite pipeline_split, run_bind.
  rewrite (guard_absent output_path force
             (mkWorld (fs w) (stdin w)
                (log w ++ banner TextToBinary filename output_path)) Hno).
  unfold work.
  rewrite (json_to_sav_body_ok _ _ _ text data g raw sav);
    try assumption; cbn [fs]; try congruence.
  cbn [fs stdin log]. now rewrite <- app_assoc.
Qed.

Lemma convert_json_to_sav_over (filename output_path : string) (w : World)
    (text old : string) (data : Obj X) (g : Gvas X) (raw : Raw X)
    (sav : string) :
  fs w !! filename = Some (File text) →
  may_read X filename = true →
  json_load X text = Some data →
  GvasFile_load X data = Some g →
  GvasFile_write X g = Some raw →
  compress_gvas_to_sav X raw
    (save_type_of (classify (save_game_class_name X g))) = Some sav →
  fs w !! output_path = Some (File old) →
  may_write X output_path = true →
  run (convert_json_to_sav X filename output_path true) w
  = (Ok tt,
     mkWorld (<[output_path := File sav]> (fs w)) (stdin w)
       (log w
        ++ banner TextToBinary filename output_path
        ++ [Print (overwrite_warning output_path);
            Print ("Loading JSON from " +:+ filename); OpenRead filename;
            Print "Compressing SAV file";
            Compress (save_type_of (classify (save_game_class_name X g)));
            Print ("Writing SAV file to " +:+ output_path);
            OpenWrite output_path; Written output_path sav])).
Proof.
  intros Hf Hr Hd Hl Hs Hc Hold Hw.
  change (convert_json_to_sav X filename output_path true)
    with (pipeline X TextToBinary filename output_path true false).
  rewrite pipeline_split, run_bind.
  rewrite guard_forced by (cbn [fs]; eauto).
  cbn [fs stdin log]. unfold work.
  rewrite (json_to_sav_body_ok _ _ _ text data g raw sav);
    try assumption; cbn [fs]; try congruence.
  cbn [fs stdin log]. now rewrite <- !app_assoc.
Qed.

(** X9. End to end, Binary→Text: when only that direction is selected,
    the input is a readable file, nothing is at the output path, and
    decompression, parsing, [dump] and the encoder succeed, the run
    returns with exit code 0 and the output file holds exactly the
    encoder's text, encoded without indentation under [--minify-json]
    and with a tab otherwise; nothing else changes and no reply is
    read. *)
Theorem sav_to_json_end_to_end (args : Args) (w : World) (data : string)
    (raw : Raw X) (z : Z) (g : Gvas X) (obj : Obj X) (text : string) :
  to_json args || endswith (filename args) ".sav" = true →
  from_json args || endswith (filename args) ".json" = false →
  fs w !! filename args = Some (File data) →
  may_read X (filename args) = true →
  decompress_sav_to_gvas X data = Some (raw, z) →
  GvasFile_read X raw = Some g →
  GvasFile_dump X g = Some obj →
  json_dump X obj (if minify_json args then None else Some "	")
  = (text, true) →
  fs w !! output_path_to_json args = None →
  may_write X (output_path_to_json args) = true →
  run (main X args) w
  = (Ok tt,
     mkWorld (<[output_path_to_json args := File text]> (fs w)) (stdin w)
       (log w
        ++ banner BinaryToText (filename args) (output_path_to_json args)
        ++ [Print "Decompressing sav file"; OpenRead (filename args);
            Print "Loading GVAS file";
            Print ("Writing JSON to " +:+ output_path_to_json args);
            OpenWrite (output_path_to_json args);
            Written (output_path_to_json args) text])).
Proof.
  intros Hsel1 Hsel2 Hf Hr Hd Hp Hdump Hjson Hno Hw.
  apply (main_runs_first args w _ data Hsel1 Hsel2 Hf).
  now apply (convert_sav_to_json_fresh _ _ _ _ _ data raw z g obj text).
Qed.

(** X10. End to end, Text→Binary: when only that direction is selected,
    the input is a readable file, nothing is at the output path, and
    decoding, [load], [write] and compression succeed, the run returns
    with exit code 0 and the output file holds exactly what the
    compressor made of the re-serialized document and the discriminator
    of its class name. *)
Theorem json_to_sav_end_to_end (args : Args) (w : World) (text : string)
    (data : Obj X) (g : Gvas X) (raw : Raw X) (sav : string) :
  to_json args || endswith (filename args) ".sav" = false →
  from_json args || endswith (filename args) ".json" = true →
  fs w !! filename args = Some (File text) →
  may_read X (filename args) = true →
  json_load X text = Some data →
  GvasFile_load X data = Some g →
  GvasFile_write X g = Some raw →
  compress_gvas_to_sav X raw
    (save_type_of (classify (save_game_class_name X g))) = Some sav →
  fs w !! output_path_from_json args = None →
  may_write X (output_path_from_json args) = true →
  run (main X args) w
  = (Ok tt,
     mkWorld (<[output_path_from_json args := File sav]> (fs w)) (stdin w)
       (log w
        ++ banner TextToBinary (filename args) (output_path_from_json args)
        ++ [Print ("Loading JSON from " +:+ filename args);
            OpenRead (filename args);
            Print "Compressing SAV file";
            Compress (save_type_of (classify (save_game_class_name X g)));
            Print ("Writing SAV file to " +:+ output_path_from_json args);
            OpenWrite (output_path_from_json args);
            Written (output_path_from_json args) sav])).
Proof.
  intros Hsel1 Hsel2 Hf Hr Hd Hl Hs Hc Hno Hw.
  rewrite (main_runs_second args w text Hsel1 Hsel2 Hf).
  now apply (convert_json_to_sav_fresh _ _ _ _ text data g raw sav).
Qed.

(** X11. Text→Binary onto an existing file with [--force]: under the
    same conditions, but with a file at the output path, the run prints
    the overwrite warning, reads no reply, and replaces what was
    there. *)
Theorem json_to_sav_forced (args : Args) (w : World) (text old : string)
    (data : Obj X) (g : Gvas X) (raw : Raw X) (sav : string) :
  to_json args || endswith (filename args) ".sav" = false →
  from_json args || endswith (filename args) ".json" = true →
  force args = true →
  fs w !! filename args = Some (File text) →
  may_read X (filename args) = true →
  json_load X text = Some data →
  GvasFile_load X data = Some g →
  GvasFile_write X g = Some raw →
  compress_gvas_to_sav X raw
    (save_type_of (classify (save_game_class_name X g))) = Some sav →
  fs w !! output_path_from_json args = Some (File old) →
  may_write X (output_path_from_json args) = true →
  run (main X args) w
  = (Ok tt,
     mkWorld (<[output_path_from_json args := File sav]> (fs w)) (stdin w)
       (log w
        ++ banner TextToBinary (filename args) (output_path_from_json args)
        ++ [Print (overwrite_warning (output_path_from_json args));
            Print ("Loading JSON from " +:+ filename args);
            OpenRead (filename args);
            Print "Compressing SAV file";
            Compress (save_type_of (classify (save_game_class_name X g)));
            Print ("Writing SAV file to " +:+ output_path_from_json args);
            OpenWrite (output_path_from_json args);
            Written (output_path_from_json args) sav])).
Proof.
  intros Hsel1 Hsel2 Hforce Hf Hr Hd Hl Hs Hc Hold Hw.
  rewrite (main_runs_second args w text Hsel1 Hsel2 Hf), Hforce.
  now apply (convert_json_to_sav_over _ _ _ text old data g raw sav).
Qed.

End Success.

(** ** The order of the conversions *)

Section Order.

Context (X : Extern).

(** X8. For a request that passes the checks, [main] enters
    [convert_sav_to_json] exactly when [--to-json] is set or the name
    ends in [".sav"], and then [convert_json_to_sav] exactly when
    [--from-json] is set or the name ends in [".json"] and the first
    conversion, if it was entered, returned. So [--to-json] on a name
    ending in [".json"] enters both, in this order, whenever the first
    conversion returns, and only the first when it does not. *)
Theorem pipelines_entered (args : Args) (w : World) :
  passes_checks args w →
  ∃ ev,
    log (run (main X args) w).2 = log w ++ ev
    ∧ pipelines_run ev
      = (if to_json args || endswith (filename args) ".sav"
         then [BinaryToText] else [])
        ++ (if from_json args || endswith (filename args) ".json"
            then
              if to_json args || endswith (filename args) ".sav"
              then
                match (run (convert_sav_to_json X (filename args)
                              (output_path_to_json args) (force args)
                              (minify_json args)) w).1
                with
                | Ok _ => [TextToBinary]
                | _ => []
                end
              else [TextToBinary]
            else []).
Proof.
  intros [Hflags [data Hfile]].
  rewrite (main_after_checks X args w data Hflags Hfile), run_bind.
  assert (Hsecond : ∀ w1,
    ∃ ev2,
      log (run (if from_json args || endswith (filename args) ".json"
                then convert_json_to_sav X (filename args)
                       (output_path_from_json args) (force args)
                else ret tt) w1).2
      = log w1 ++ ev2
      ∧ pipelines_run ev2
        = if from_json args || endswith (filename args) ".json"
          then [TextToBinary] else []).
  { intros w1.
    destruct (from_json args || endswith (filename args) ".json").
    - pose proof (convert_json_to_sav_post X (filename args)
                    (output_path_from_json args) (force args) w1) as H.
      unfold post, pipeline_contract in H.
      destruct H as (_ & ev2 & Hlog2 & He2 & _).
      exists (Enter TextToBinary :: ev2). split; [exact Hlog2|].
      simpl. now rewrite (pipelines_run_none ev2).
    - exists []. split; [cbn [run ret snd]; now rewrite app_nil_r|].
      reflexivity. }
  destruct (to_json args || endswith (filename args) ".sav").
  - pose proof (convert_sav_to_json_post X (filename args)
                  (output_path_to_json args) (force args) (minify_json args)
                  w) as H.
    unfold post, pipeline_contract in H.
    destruct H as (_ & ev1 & Hlog1 & He1 & _).
    assert (Hev1 : pipelines_run (Enter BinaryToText :: ev1) = [BinaryToText])
      by (simpl; now rewrite (pipelines_run_none ev1)).
    destruct (run (convert_sav_to_json X (filename args)
                     (output_path_to_json args) (force args)
                     (minify_json args)) w) as [[[]|c|e] w1];
      cbn [fst snd] in *.
    + destruct (Hsecond w1) as (ev2 & Hlog2 & Hev2).
      exists ((Enter BinaryToText :: ev1) ++ ev2).
      split; [rewrite Hlog2, Hlog1; now rewrite <- app_assoc|].
      rewrite pipelines_run_app, Hev1, Hev2.
      now destruct (from_json args || endswith (filename args) ".json").
    + exists (Enter BinaryToText :: ev1). split; [exact Hlog1|].
      rewrite Hev1.
      now destruct (from_json args || endswith (filename args) ".json").
    + exists (Enter BinaryToText :: ev1). split; [exact Hlog1|].
      rewrite Hev1.
      now destruct (from_json args || endswith (filename args) ".json").
  - cbn [run ret]. destruct (Hsecond w) as (ev2 & Hlog2 & Hev2).
    exists ev2. split; [exact Hlog2|]. rewrite Hev2.
    now destruct (from_json args || endswith (filename args) ".json").
Qed.

End Order.

Lemma pipelines_entered_witness :
  ∃ ev,
    log (run (main Stub.lib (mkArgs "a.json" true false None false false))
           (Stub.world [("a.json", File Stub.world_sav)] [])).2
    = ev
    ∧ pipelines_run ev = [BinaryToText; TextToBinary].
Proof.
  exact (pipelines_entered Stub.lib
           (mkArgs "a.json" true false None false false)
           (Stub.world [("a.json", File Stub.world_sav)] [])
           (conj eq_refl (ex_intro _ Stub.world_sav eq_refl))).
Defined.

Lemma sav_to_json_end_to_end_witness :
  fs (run (main Stub.lib (mkArgs "level.sav" false false None false false))
        (Stub.world [("level.sav", File Stub.world_sav)] [])).2
  !! "level.sav.json"
  = Some (File Stub.world_json).
Proof.
  rewrite (sav_to_json_end_to_end Stub.lib
             (mkArgs "level.sav" false false None false false)
             (Stub.world [("level.sav", File Stub.world_sav)] [])
             Stub.world_sav "GVAS/Script/Pal.PalWorldSaveGame" 50
             "GVAS/Script/Pal.PalWorldSaveGame"
             "GVAS/Script/Pal.PalWorldSaveGame" Stub.world_json
             eq_refl eq_refl eq_refl eq_refl eq_refl eq_refl eq_refl eq_refl
             eq_refl eq_refl).
  reflexivity.
Defined.

Lemma json_to_sav_end_to_end_witness :
  fs (run (main Stub.lib
             (mkArgs "level.sav.json" false false (Some "new.sav") false false))
        (Stub.both_files [])).2
  !! "new.sav"
  = Some (File Stub.world_sav).
Proof.
  rewrite (json_to_sav_end_to_end Stub.lib
             (mkArgs "level.sav.json" false false (Some "new.sav") false false)
             (Stub.both_files [])
             Stub.world_json "GVAS/Script/Pal.PalWorldSaveGame"
             "GVAS/Script/Pal.PalWorldSaveGame"
             "GVAS/Script/Pal.PalWorldSaveGame" Stub.world_sav
             eq_refl eq_refl eq_refl eq_refl eq_refl eq_refl eq_refl eq_refl
             eq_refl eq_refl).
  reflexivity.
Defined.

Lemma json_to_sav_forced_witness :
  fs (run (main Stub.lib
             (mkArgs "level.sav.json" false false None true false))
        (Stub.both_files ["unread"])).2
  !! "level.sav"
  = Some (File Stub.world_sav)
  ∧ stdin (run (main Stub.lib
                  (mkArgs "level.sav.json" false false None true false))
             (Stub.both_files ["unread"])).2
    = ["unread"].
Proof.
  rewrite (json_to_sav_forced Stub.lib
             (mkArgs "level.sav.json" false false None true false)
             (Stub.both_files ["unread"])
             Stub.world_json "old" "GVAS/Script/Pal.PalWorldSaveGame"
             "GVAS/Script/Pal.PalWorldSaveGame"
             "GVAS/Script/Pal.PalWorldSaveGame" Stub.world_sav
             eq_refl eq_refl eq_refl eq_refl eq_refl eq_refl eq_refl eq_refl
             eq_refl eq_refl eq_refl).
  split; reflexivity.
Defined.

(** ** Default output paths *)

Lemma prefix_json_append (c1 : ascii) (s : string) :
  String.prefix ".json" (String c1 s) = false →
  String.prefix ".json" (String c1 s +:+ ".json") = false.
Proof.
  intros Hp.
  destruct (String.prefix ".json" (String c1 s +:+ ".json")) eqn:E;
    [|reflexivity].
  exfalso. apply prefix_append in E as [t Ht].
  assert (Hq : String.prefix ".json" (String c1 s) = true);
    [|congruence].
  apply prefix_append.
  destruct s as [|c2 [|c3 [|c4 [|c5 s]]]];
    rewrite ?append_cons, ?append_nil_l in Ht; simplify_eq.
  eexists; reflexivity.
Qed.

Lemma replace_from_json_suffix (name : string) :
  str_in ".json" name = false →
  replace_from ".json" "" 0 (name +:+ ".json") = name.
Proof.
  induction name as [|c name IH].
  - reflexivity.
  - rewrite str_in_cons, orb_false_iff. intros [Hp Hin].
    apply prefix_json_append in Hp. rewrite append_cons in *.
    rewrite replace_from_nomatch by assumption. now rewrite IH.
Qed.

Lemma removes_every_length (sub s out : string) :
  removes_every sub s out →
  (String.length out ≤ String.length s)%nat.
Proof.
  induction 1 as [s _ | pre post out _ _ IH]; [lia|].
  rewrite !length_append. lia.
Qed.

Lemma removes_every_shorter (sub s out : string) :
  removes_every sub s out → occurs sub s →
  (String.length out + String.length sub ≤ String.length s)%nat.
Proof.
  intros H Hocc. destruct H as [s Hn | pre post out _ Hrest];
    [contradiction|].
  apply removes_every_length in Hrest. rewrite !length_append. lia.
Qed.

(** X12. The two defaults undo each other on a name that holds no
    [".json"]: the Text→Binary default of the Binary→Text default of
    such a name is the name again (["level.sav"] gives
    ["level.sav.json"], which gives ["level.sav"]). *)
Theorem default_paths_round_trip (args : Args) :
  truthy (output args) = false →
  ¬ occurs ".json" (filename args) →
  output_path_from_json
    (mkArgs (output_path_to_json args) (to_json args) (from_json args)
            (output args) (force args) (minify_json args))
  = filename args.
Proof.
  intros Ht Hno. apply str_in_not_occurs in Hno.
  unfold output_path_from_json, output_path_to_json.
  cbn [filename output]. rewrite Ht. cbn [negb]. unfold replace.
  now apply replace_from_json_suffix.
Qed.

(** X13. Without an override, the Text→Binary default is the input name
    itself exactly when the name holds no [".json"]; otherwise it is
    shorter by at least the five characters of one occurrence. So
    [--from-json] on such a name aims at its own input. *)
Theorem from_json_default_is_input (args : Args) :
  truthy (output args) = false →
  (output_path_from_json args = filename args
   ↔ ¬ occurs ".json" (filename args))
  ∧ (occurs ".json" (filename args) →
     (String.length (output_path_from_json args) + 5
      ≤ String.length (filename args))%nat).
Proof.
  intros Ht.
  assert (Hout : output_path_from_json args
                 = replace (filename args) ".json" "")
    by (unfold output_path_from_json; now rewrite Ht).
  assert (Hshort : occurs ".json" (filename args) →
                   (String.length (replace (filename args) ".json" "") + 5
                    ≤ String.length (filename args))%nat).
  { intros Hocc.
    pose proof (replace_removes_every (filename args) ".json"
                  ltac:(discriminate)) as Hre.
    apply (removes_every_shorter _ _ _ Hre Hocc). }
  rewrite Hout. split; [split|exact Hshort].
  - intros E Hocc. apply Hshort in Hocc. rewrite E in Hocc. lia.
  - intros Hno. apply str_in_not_occurs in Hno. unfold replace.
    now apply replace_from_absent.
Qed.

Lemma default_paths_round_trip_witness :
  output_path_from_json
    (mkArgs (output_path_to_json
               (mkArgs "level.sav" false false None false false))
            false false None false false)
  = "level.sav".
Proof.
  refine (default_paths_round_trip
            (mkArgs "level.sav" false false None false false) eq_refl _).
  intros H. apply str_in_occurs in H. discriminate H.
Defined.

Lemma from_json_default_is_input_witness :
  output_path_from_json (mkArgs "notes.txt" false true None false false)
  = "notes.txt".
Proof.
  refine (proj2 (proj1 (from_json_default_is_input
                          (mkArgs "notes.txt" false true None false false)
                          eq_refl)) _).
  intros H. apply str_in_occurs in H. discriminate H.
Defined.

(** ** Reading a save into an object, and the way back *)

Lemma endswith_json_not_sav (name : string) :
  endswith name ".json" = true → endswith name ".sav" = false.
Proof.
  intros Hj. destruct (endswith name ".sav") eqn:Hs; [|reflexivity].
  apply endswith_sav_json in Hs. congruence.
Qed.

Section RoundTrip.

Context (X : Extern).

(** X14. [convert_sav_to_obj] only reads: it leaves every file and the
    standard input as they were, opens nothing for writing and never
    prompts; and it returns an object exactly when the input is a
    readable file whose bytes decompress and parse into a document that
    [dump] turns into that object. *)
Theorem convert_sav_to_obj_reads_only (filename : string) (w : World) :
  fs (run (convert_sav_to_obj X filename) w).2 = fs w
  ∧ stdin (run (convert_sav_to_obj X filename) w).2 = stdin w
  ∧ (∃ ev,
       log (run (convert_sav_to_obj X filename) w).2 = log w ++ ev
       ∧ none_of is_write ev ∧ none_of is_prompt ev)
  ∧ ∀ obj,
      (run (convert_sav_to_obj X filename) w).1 = Ok obj
      ↔ ∃ data raw z g,
          fs w !! filename = Some (File data)
          ∧ may_read X filename = true
          ∧ decompress_sav_to_gvas X data = Some (raw, z)
          ∧ GvasFile_read X raw = Some g
          ∧ GvasFile_dump X g = Some obj.
Proof.
  change (post (convert_sav_to_obj X filename) w (λ oc w',
    fs w' = fs w ∧ stdin w' = stdin w
    ∧ (∃ ev, log w' = log w ++ ev
         ∧ none_of is_write ev ∧ none_of is_prompt ev)
    ∧ ∀ obj, oc = Ok obj
        ↔ ∃ data raw z g,
            fs w !! filename = Some (File data)
            ∧ may_read X filename = true
            ∧ decompress_sav_to_gvas X data = Some (raw, z)
            ∧ GvasFile_read X raw = Some g
            ∧ GvasFile_dump X g = Some obj)).
  unfold convert_sav_to_obj. repeat post_step; simpl;
    (split; [reflexivity|]); (split; [reflexivity|]);
    (split; [log_normal; eexists;
             split; [reflexivity | split; auto 10 with events]|]);
    intros obj';
    (split; [intros Hoc; simplify_eq; eauto 15
            | intros (d' & r' & z' & g' & Hx1 & Hx2 & Hx3 & Hx4 & Hx5);
              simplify_eq; congruence]).
Qed.

(** X15. [--from-json --force] on a name that holds no [".json"], with
    no override: the output path is the input itself, so a run in which
    decoding, [load], [write] and compression succeed warns about its
    own input and replaces the text by the container. *)
Theorem from_json_overwrites_input (args : Args) (w : World) (text : string)
    (data : Obj X) (g : Gvas X) (raw : Raw X) (sav : string) :
  to_json args = false → from_json args = true → force args = true →
  truthy (output args) = false →
  endswith (filename args) ".sav" = false →
  ¬ occurs ".json" (filename args) →
  fs w !! filename args = Some (File text) →
  may_read X (filename args) = true →
  may_write X (filename args) = true →
  json_load X text = Some data →
  GvasFile_load X data = Some g →
  GvasFile_write X g = Some raw →
  compress_gvas_to_sav X raw
    (save_type_of (classify (save_game_class_name X g))) = Some sav →
  (run (main X args) w).1 = Ok tt
  ∧ fs (run (main X args) w).2 = <[filename args := File sav]> (fs w)
  ∧ ∃ ev,
      log (run (main X args) w).2 = log w ++ ev
      ∧ In (Print (overwrite_warning (filename args))) ev.
Proof.
  intros Ht Hfj Hforce Hout Hsav Hno Hf Hr Hw Hd Hl Hs Hc.
  assert (Hpath : output_path_from_json args = filename args).
  { unfold output_path_from_json. rewrite Hout. cbn [negb]. unfold replace.
    apply replace_from_absent. now apply str_in_not_occurs. }
  rewrite (main_runs_second X args w text);
    [|now rewrite Ht, Hsav | now rewrite Hfj | assumption].
  rewrite Hpath, Hforce.
  rewrite (convert_json_to_sav_over X _ _ _ text text data g raw sav);
    try assumption.
  split; [reflexivity|]. split; [reflexivity|].
  eexists. split; [reflexivity|].
  apply in_or_app. right. now left.
Qed.

(** X16. There and back. On a name that ends in [".sav"] and holds no
    [".json"], a plain run writes the text next to the save; a second
    plain run with [--force] on that text derives the save's own name,
    and, when the text decodes and loads into a document of the same
    class name, replaces the save by a container compressed with the
    discriminator of the original document's class. The text stays as
    the first run wrote it. *)
Theorem there_and_back (name : string) (minify : bool) (w : World)
    (data : string) (raw : Raw X) (z : Z) (g : Gvas X) (obj : Obj X)
    (text : string) (obj' : Obj X) (g' : Gvas X) (raw' : Raw X)
    (sav : string) :
  endswith name ".sav" = true →
  ¬ occurs ".json" name →
  fs w !! name = Some (File data) →
  fs w !! (name +:+ ".json") = None →
  may_read X name = true → may_write X (name +:+ ".json") = true →
  may_read X (name +:+ ".json") = true → may_write X name = true →
  decompress_sav_to_gvas X data = Some (raw, z) →
  GvasFile_read X raw = Some g →
  GvasFile_dump X g = Some obj →
  json_dump X obj (if minify then None else Some "	") = (text, true) →
  json_load X text = Some obj' →
  GvasFile_load X obj' = Some g' →
  save_game_class_name X g' = save_game_class_name X g →
  GvasFile_write X g' = Some raw' →
  compress_gvas_to_sav X raw'
    (save_type_of (classify (save_game_class_name X g))) = Some sav →
  (run (main X (mkArgs (name +:+ ".json") false false None true false))
     (run (main X (mkArgs name false false None false minify)) w).2).1
  = Ok tt
  ∧ fs (run (main X (mkArgs (name +:+ ".json") false false None true false))
          (run (main X (mkArgs name false false None false minify)) w).2).2
    = <[name := File sav]> (<[name +:+ ".json" := File text]> (fs w))
  ∧ In (Compress (save_type_of (classify (save_game_class_name X g))))
      (log (run (main X (mkArgs (name +:+ ".json") false false None true
                           false))
              (run (main X (mkArgs name false false None false minify))
                 w).2).2).
Proof.
  intros Hsav Hno Hf Hfresh Hr Hw Hr' Hw' Hd Hp Hdump Hjson Hload Hl Hcn Hs Hc.
  assert (Hne : name ≠ name +:+ ".json").
  { intros E. apply (f_equal String.length) in E.
    rewrite length_append in E. simpl in E. lia. }
  assert (Hjs : endswith (name +:+ ".json") ".json" = true)
    by (apply endswith_append; now exists name).
  assert (Hjn : endswith name ".json" = false)
    by (now apply endswith_sav_json).
  assert (Hback : output_path_from_json
                    (mkArgs (name +:+ ".json") false false None true false)
                  = name)
    by (apply replace_from_json_suffix; now apply str_in_not_occurs).
  rewrite (main_runs_first X (mkArgs name false false None false minify) w
             (mkWorld (<[name +:+ ".json" := File text]> (fs w)) (stdin w)
                (log w
                 ++ banner BinaryToText name (name +:+ ".json")
                 ++ [Print "Decompressing sav file"; OpenRead name;
                     Print "Loading GVAS file";
                     Print ("Writing JSON to " +:+ (name +:+ ".json"));
                     OpenWrite (name +:+ ".json");
                     Written (name +:+ ".json") text]))
             data);
    [|exact Hsav | exact Hjn | exact Hf
     |now apply (convert_sav_to_json_fresh X _ _ _ _ _ data raw z g obj text)].
  cbn [snd].
  rewrite (main_runs_second X
             (mkArgs (name +:+ ".json") false false None true false) _ text);
    [|now apply endswith_json_not_sav | exact Hjs
     |apply lookup_insert_eq].
  rewrite Hback. cbn [filename force].
  rewrite (convert_json_to_sav_over X _ _ _ text data obj' g' raw' sav);
    [|apply lookup_insert_eq | exact Hr' | exact Hload | exact Hl | exact Hs
     |now rewrite Hcn
     |cbn [fs]; rewrite lookup_insert_ne by (intros E; now apply Hne);
      exact Hf
     |exact Hw'].
  split; [reflexivity|]. split; [reflexivity|].
  rewrite Hcn. cbn [snd log].
  apply in_or_app. right. apply in_or_app. right. simpl. auto 10.
Qed.

End RoundTrip.

Lemma from_json_overwrites_input_witness :
  fs (run (main Stub.lib (mkArgs "notes.txt" false true None true false))
        (Stub.world [("notes.txt", File Stub.world_json)] [])).2
  = <[ "notes.txt" := File Stub.world_sav ]>
      (fs (Stub.world [("notes.txt", File Stub.world_json)] [])).
Proof.
  refine (proj1 (proj2 (from_json_overwrites_input Stub.lib
            (mkArgs "notes.txt" false true None true false)
            (Stub.world [("notes.txt", File Stub.world_json)] [])
            Stub.world_json "GVAS/Script/Pal.PalWorldSaveGame"
            "GVAS/Script/Pal.PalWorldSaveGame"
            "GVAS/Script/Pal.PalWorldSaveGame" Stub.world_sav
            eq_refl eq_refl eq_refl eq_refl eq_refl _
            eq_refl eq_refl eq_refl eq_refl eq_refl eq_refl eq_refl))).
  intros H. apply str_in_occurs in H. discriminate H.
Defined.

Lemma there_and_back_witness :
  fs (run (main Stub.lib (mkArgs "level.sav.json" false false None true false))
        (run (main Stub.lib (mkArgs "level.sav" false false None false false))
           (Stub.world [("level.sav", File Stub.world_sav)] [])).2).2
  = <[ "level.sav" := File Stub.world_sav ]>
      (<[ "level.sav.json" := File Stub.world_json ]>
         (fs (Stub.world [("level.sav", File Stub.world_sav)] []))).
Proof.
  refine (proj1 (proj2 (there_and_back Stub.lib "level.sav" false
            (Stub.world [("level.sav", File Stub.world_sav)] [])
            Stub.world_sav "GVAS/Script/Pal.PalWorldSaveGame" 50
            "GVAS/Script/Pal.PalWorldSaveGame"
            "GVAS/Script/Pal.PalWorldSaveGame" Stub.world_json
            "GVAS/Script/Pal.PalWorldSaveGame"
            "GVAS/Script/Pal.PalWorldSaveGame"
            "GVAS/Script/Pal.PalWorldSaveGame" Stub.world_sav
            eq_refl _ eq_refl eq_refl eq_refl eq_refl eq_refl eq_refl
            eq_refl eq_refl eq_refl eq_refl eq_refl eq_refl eq_refl eq_refl
            eq_refl))).
  intros H. apply str_in_occurs in H. discriminate H.
Defined.

(** ** What a failed conversion leaves behind *)

Section Failure.

Context (X : Extern).


Lemma json_to_sav_body_keeps (filename output_path : string) (w : World) :
  post (json_to_sav_body X filename output_path) w (λ oc w',
    ∃ ev, log w' = log w ++ ev
      ∧ (oc = Exit 1 ∨ oc = Raise EOFError ∨ (∃ s, oc = Raise (Delegated s)) →
         fs w' = fs w ∧ none_of is_write ev)).
Proof.
  unfold json_to_sav_body, obj_to_sav_body.
  repeat post_step; simpl; log_normal; (eexists; split; [reflexivity|]);
    intros [Hoc | [Hoc | [? Hoc]]]; try discriminate Hoc;
    (split; [reflexivity | auto 20 with events]).
Qed.

Lemma text_to_binary_keeps (filename output_path : string) (force : bool)
    (w : World) :
  post (pipeline X TextToBinary filename output_path force false) w
    (λ oc w',
       oc = Exit 1 ∨ oc = Raise EOFError ∨ (∃ s, oc = Raise (Delegated s)) →
       fs w' = fs w
       ∧ ∃ ev, log w' = log w ++ ev ∧ none_of is_write ev).
Proof.
  eapply post_ext; [apply pipeline_split|].
  apply post_bind. eapply post_mono; [apply guard_post|]. cbn beta.
  intros oc w1 (Hfs & Hoc & ev1 & Hlog1 & Hev1 & _).
  cbn [fs log] in Hfs, Hlog1.
  assert (Hb : none_of is_write
                 (banner TextToBinary filename output_path ++ ev1)).
  { apply none_of_app; [repeat constructor|].
    eapply none_of_weaken; [|exact Hev1]. now intros []. }
  assert (Hstop : fs w1 = fs w
                  ∧ ∃ ev, log w1 = log w ++ ev ∧ none_of is_write ev).
  { split; [exact Hfs|].
    exists (banner TextToBinary filename output_path ++ ev1).
    split; [rewrite Hlog1; now rewrite <- app_assoc | exact Hb]. }
  destruct Hoc as [-> | [-> | ->]]; cbv beta iota; try (intros _; exact Hstop).
  unfold work.
  eapply post_mono; [apply json_to_sav_body_keeps|]. cbn beta.
  intros oc w2 (ev2 & Hlog2 & Hkeep) Hoc.
  destruct (Hkeep Hoc) as [Hfs2 Hw2].
  split; [rewrite Hfs2; exact Hfs|].
  exists ((banner TextToBinary filename output_path ++ ev1) ++ ev2).
  split; [rewrite Hlog2, Hlog1; now rewrite <- !app_assoc|].
  now apply none_of_app.
Qed.

(** X17. In [convert_json_to_sav] the prompt and every collaborator
    come before the output is opened: a run that ends in [exit(1)], in
    [EOFError], or in the failure of a collaborator (decoding, [load],
    [write] or compression) has opened nothing for writing and leaves
    every file as it was. A failure of the open, the write or the close
    of the output is another matter and is not spoken of. *)
Theorem json_to_sav_fails_before_open (filename output_path : string)
    (force : bool) (w : World) :
  (run (convert_json_to_sav X filename output_path force) w).1 = Exit 1
  ∨ (run (convert_json_to_sav X filename output_path force) w).1
    = Raise EOFError
  ∨ (∃ s, (run (convert_json_to_sav X filename output_path force) w).1
          = Raise (Delegated s)) →
  fs (run (convert_json_to_sav X filename output_path force) w).2 = fs w
  ∧ ∃ ev,
      log (run (convert_json_to_sav X filename output_path force) w).2
      = log w ++ ev
      ∧ none_of is_write ev.
Proof.
  exact (text_to_binary_keeps filename output_path force w).
Qed.



End Failure.

Lemma json_to_sav_fails_before_open_witness :
  fs (run (convert_json_to_sav Stub.lib "bad.json" "level.sav" true)
        (Stub.world [("bad.json", File "{	GVAS#"); ("level.sav", File "old")]
           [])).2
  = fs (Stub.world [("bad.json", File "{	GVAS#"); ("level.sav", File "old")]
          []).
Proof.
  refine (proj1 (json_to_sav_fails_before_open Stub.lib "bad.json" "level.sav"
                   true
                   (Stub.world [("bad.json", File "{	GVAS#");
                                ("level.sav", File "old")] [])
                   _)).
  right. right. exists Serialize. reflexivity.
Defined.

